(** * SVM playground: one-vs-rest training and the margin decision rule

    A shallow embedding of [src/app/page.tsx] (the React component [Home] and
    its two module-level helpers) and of the part of [src/types/ml-svm.d.ts]
    the component uses.

    - JavaScript numbers are IEEE 754 binary64 values: Rocq's primitive
      floats, with the comparison and classification lemmas derived from the
      specification of the primitives.
    - [Number(string)] is the StringToNumber conversion with correct rounding.
    - Rows ([Record<string, string>]) are finite maps from column names to
      cell texts.
    - [throw]/[try]/[catch] is an error monad over the thrown value.
    - The component's [useState] cells form one record; every handler is a
      function on it.  [trainModel] is [async]: its result says whether the
      returned promise settles. *)

From Stdlib Require Import ZArith Floats Ascii String.
From stdpp Require Import gmap strings list.

Set Warnings "-inexact-float".

(* ===================================================================== *)
(** ** JavaScript numbers *)
(* ===================================================================== *)

Module JsNumber.

Definition number : Type := float.

Definition NaN : number := nan.
Definition Infinity : number := infinity.
Definition negInfinity : number := neg_infinity.

(** [Number.isFinite(x)] *)
Definition Number_isFinite (x : number) : bool := is_finite x.

(** [a > b] *)
Definition gt (a b : number) : bool := (b <? a)%float.

(** [Math.max(a, b)] for two arguments: NaN if either is NaN, and +0 is
    larger than -0. *)
Definition Math_max (a b : number) : number :=
  if is_nan a || is_nan b then NaN
  else if (a <? b)%float then b
  else if (b <? a)%float then a
  else if get_sign a then b else a.

Definition Math_sqrt (x : number) : number := PrimFloat.sqrt x.

(** The number whose value is the integer [z], rounded to nearest even. *)
Definition number_of_Z (z : Z) : number :=
  SF2Prim (binary_normalize prec emax z 0 false).

Definition number_of_nat (n : nat) : number := number_of_Z (Z.of_nat n).

(** *** StringToNumber *)

(** The decimal value [M * 10^E] with sign [neg], rounded to nearest even. *)
Definition decimal_to_number (neg : bool) (M E : Z) : number :=
  if (M =? 0)%Z then (if neg then (-0)%float else 0%float)
  else
    let sf :=
      if (0 <=? E)%Z then binary_normalize prec emax (M * 10 ^ E) 0 false
      else SFdiv prec emax (S754_finite false (Z.to_pos M) 0)
                           (S754_finite false (Z.to_pos (10 ^ (- E))) 0) in
    let x := SF2Prim sf in
    if neg then (- x)%float else x.

(** A string is the sequence of the UTF-8 bytes of the text.  StrWhiteSpaceChar
    is WhiteSpace or LineTerminator: the one-byte characters U+0009 to U+000D
    and U+0020, *)
Definition isStrWhiteSpaceChar (c : ascii) : bool :=
  let n := N_of_ascii c in
  (N.eqb n 9 || N.eqb n 10 || N.eqb n 11 || N.eqb n 12 || N.eqb n 13
   || N.eqb n 32)%bool.

(** the two-byte character U+00A0 (C2 A0), *)
Definition isStrWhiteSpace2 (c d : ascii) : bool :=
  (N.eqb (N_of_ascii c) 194 && N.eqb (N_of_ascii d) 160)%bool.

(** and the three-byte characters U+1680 (E1 9A 80), U+2000 to U+200A
    (E2 80 80 to E2 80 8A), U+2028 and U+2029 (E2 80 A8, E2 80 A9), U+202F
    (E2 80 AF), U+205F (E2 81 9F), U+3000 (E3 80 80) and U+FEFF (EF BB BF). *)
Definition isStrWhiteSpace3 (c d e : ascii) : bool :=
  let '(x, y, z) := (N_of_ascii c, N_of_ascii d, N_of_ascii e) in
  ((N.eqb x 225 && N.eqb y 154 && N.eqb z 128)
   || (N.eqb x 226 && N.eqb y 128
       && ((N.leb 128 z && N.leb z 138) || N.eqb z 168 || N.eqb z 169
           || N.eqb z 175))
   || (N.eqb x 226 && N.eqb y 129 && N.eqb z 159)
   || (N.eqb x 227 && N.eqb y 128 && N.eqb z 128)
   || (N.eqb x 239 && N.eqb y 187 && N.eqb z 191))%bool.

Fixpoint trimStart (s : string) : string :=
  match s with
  | EmptyString => EmptyString
  | String c r =>
      if isStrWhiteSpaceChar c then trimStart r
      else
        match r with
        | EmptyString => s
        | String d r2 =>
            if isStrWhiteSpace2 c d then trimStart r2
            else
              match r2 with
              | EmptyString => s
              | String e r3 =>
                  if isStrWhiteSpace3 c d e then trimStart r3 else s
              end
        end
  end.

(** Cuts the text where only white space follows. *)
Fixpoint trimEnd (s : string) : string :=
  match s with
  | EmptyString => EmptyString
  | String c r =>
      match trimStart s with
      | EmptyString => EmptyString
      | String _ _ => String c (trimEnd r)
      end
  end.

Definition trim (s : string) : string := trimEnd (trimStart s).

Definition decimalDigit (c : ascii) : option Z :=
  let n := Z.of_N (N_of_ascii c) in
  if (48 <=? n)%Z && (n <=? 57)%Z then Some (n - 48)%Z else None.

Definition hexDigit (c : ascii) : option Z :=
  let n := Z.of_N (N_of_ascii c) in
  if (48 <=? n)%Z && (n <=? 57)%Z then Some (n - 48)%Z
  else if (97 <=? n)%Z && (n <=? 102)%Z then Some (n - 87)%Z
  else if (65 <=? n)%Z && (n <=? 70)%Z then Some (n - 55)%Z
  else None.

Definition digitBelow (base : Z) (c : ascii) : option Z :=
  match decimalDigit c with
  | Some d => if (d <? base)%Z then Some d else None
  | None => None
  end.

(** Reads the longest prefix of digits, continuing the accumulator [acc]:
    the value read, the number of digits and the rest of the text. *)
Fixpoint readDigits (base : Z) (digit : ascii -> option Z) (s : string)
    (acc : Z) (count : nat) : Z * nat * string :=
  match s with
  | String c s' =>
      match digit c with
      | Some d => readDigits base digit s' (acc * base + d)%Z (S count)
      | None => (acc, count, s)
      end
  | EmptyString => (acc, count, s)
  end.

(** ExponentPart_opt followed by the end of the text. *)
Definition exponentPart (s : string) : option Z :=
  match s with
  | EmptyString => Some 0%Z
  | String c r =>
      if Ascii.eqb c "e" || Ascii.eqb c "E" then
        let '(neg, r') :=
          match r with
          | String "+" t => (false, t)
          | String "-" t => (true, t)
          | _ => (false, r)
          end in
        match readDigits 10 decimalDigit r' 0 0 with
        | (v, S _, EmptyString) => Some (if neg then (- v)%Z else v)
        | _ => None
        end
      else None
  end.

(** StrUnsignedDecimalLiteral, already stripped of its sign [neg]. *)
Definition strUnsignedDecimalLiteral (neg : bool) (s : string) : number :=
  if String.eqb s "Infinity" then (if neg then negInfinity else Infinity)
  else
    let '(ip, ni, r1) := readDigits 10 decimalDigit s 0 0 in
    let '(m, nf, r2) :=
      match r1 with
      | String "." r => readDigits 10 decimalDigit r ip 0
      | _ => (ip, 0%nat, r1)
      end in
    if Nat.eqb (ni + nf) 0 then NaN
    else
      match exponentPart r2 with
      | Some e => decimal_to_number neg m (e - Z.of_nat nf)
      | None => NaN
      end.

(** NonDecimalIntegerLiteral after its [0x], [0o] or [0b] prefix. *)
Definition nonDecimalIntegerLiteral (base : Z) (digit : ascii -> option Z)
    (s : string) : number :=
  match readDigits base digit s 0 0 with
  | (v, S _, EmptyString) => number_of_Z v
  | _ => NaN
  end.

Definition StringToNumber (s : string) : number :=
  let t := trim s in
  match t with
  | EmptyString => 0%float
  | String "+" r => strUnsignedDecimalLiteral false r
  | String "-" r => strUnsignedDecimalLiteral true r
  | String "0" (String p r) =>
      if Ascii.eqb p "x" || Ascii.eqb p "X"
      then nonDecimalIntegerLiteral 16 hexDigit r
      else if Ascii.eqb p "o" || Ascii.eqb p "O"
      then nonDecimalIntegerLiteral 8 (digitBelow 8) r
      else if Ascii.eqb p "b" || Ascii.eqb p "B"
      then nonDecimalIntegerLiteral 2 (digitBelow 2) r
      else strUnsignedDecimalLiteral false t
  | _ => strUnsignedDecimalLiteral false t
  end.

(** [Number(value)] where [value] is a string or, for a key the object
    lacks, [undefined]. *)
Definition Number (value : option string) : number :=
  match value with
  | Some s => StringToNumber s
  | None => NaN
  end.

(** [String(value)] on the same values. *)
Definition String_ (value : option string) : string :=
  match value with
  | Some s => s
  | None => "undefined"
  end.

(** *** The order on numbers *)

(** A number that is not NaN. *)
Definition ordered (x : number) : Prop := Prim2SF x <> S754_nan.

(** A rank on the non-NaN values: comparing two of them is comparing
    their ranks lexicographically. *)
Definition rank (f : spec_float) : Z * Z * Z :=
  match f with
  | S754_zero _ => (0, 0, 0)%Z
  | S754_infinity s => (if s then -2 else 2, 0, 0)%Z
  | S754_nan => (0, 0, 0)%Z
  | S754_finite s m e => if s then (-1, - e, - Z.pos m)%Z else (1, e, Z.pos m)%Z
  end.

Definition rank_lt (a b : Z * Z * Z) : Prop :=
  let '(a1, a2, a3) := a in
  let '(b1, b2, b3) := b in
  (a1 < b1 \/ (a1 = b1 /\ (a2 < b2 \/ (a2 = b2 /\ a3 < b3))))%Z.

End JsNumber.

(* ===================================================================== *)
(** ** Exceptions *)
(* ===================================================================== *)

Module Exn.

(** A thrown value: an [Error] object with its message, or anything else
    (the [catch] clauses test [error instanceof Error]). *)
Inductive thrown : Type :=
  | ErrorObj (message : string)
  | OtherValue.

(** A computation that returns or throws. *)
Inductive result (A : Type) : Type :=
  | Ok (a : A)
  | Throw (e : thrown).
Arguments Ok {A} a.
Arguments Throw {A} e.

(** [array.map(callback)] with a callback that may throw: elements are
    visited in order and the first exception ends the traversal. *)
Fixpoint mapE {A B : Type} (f : A -> result B) (l : list A)
    : result (list B) :=
  match l with
  | [] => Ok []
  | x :: l' =>
      match f x with
      | Ok y =>
          match mapE f l' with
          | Ok ys => Ok (y :: ys)
          | Throw e => Throw e
          end
      | Throw e => Throw e
      end
  end.

End Exn.

(* ===================================================================== *)
(** ** The ml-svm module, as declared in [src/types/ml-svm.d.ts] *)
(* ===================================================================== *)

Module MlSvm.
Import JsNumber Exn.

Inductive KernelType : Type := linear | polynomial | rbf | sigmoid.

(** The shapes of [KernelOptions] the component builds. *)
Inductive KernelOptions : Type :=
  | RbfKernelOptions (sigma : number)
  | PolynomialKernelOptions (degree constant multiplier : number)
  | SigmoidKernelOptions (constant multiplier : number).

Record SVMOptions : Type := {
  C : number;
  tol : number;
  maxPasses : number;
  maxIterations : number;
  kernel : KernelType;
  kernelOptions : option KernelOptions;
}.

(** An [SVM] instance after [train], seen through the two methods the
    component calls. *)
Record SVM : Type := {
  predictOne : list number -> number;
  marginOne : list number -> number;
}.

(** [new SVM(options)] followed by [train(features, labels)] on the new
    instance: the trained instance, or the value [train] threw.  The
    implementation is not part of this repository. *)
Definition Trainer : Type :=
  SVMOptions -> list (list number) -> list number -> result SVM.

End MlSvm.

(* ===================================================================== *)
(** ** [src/app/page.tsx] *)
(* ===================================================================== *)

Module Page.
Import JsNumber Exn MlSvm.

Definition ParsedRow : Type := gmap string string.

Inductive KernelKey : Type := LINEAR | POLY | RBF | SIGMOID.

Record TrainedModel : Type := {
  label : string;
  svm : SVM;
}.

Definition KERNEL_MAP (k : KernelKey) : KernelType :=
  match k with
  | LINEAR => linear
  | POLY => polynomial
  | RBF => rbf
  | SIGMOID => sigmoid
  end.

Definition parseFeatureValue (value : option string) : number :=
  let parsed := Number value in
  if Number_isFinite parsed then parsed else NaN.

(** [gammaValue ?? 1 / Math.max(1, dimension)] and the options object of
    each kernel; [None] is [undefined]. *)
Definition resolveKernelOptions (kernel : KernelKey)
    (gammaValue : option number) (dimension : number)
    : option KernelOptions :=
  match kernel with
  | RBF =>
      let effectiveGamma :=
        match gammaValue with
        | Some g => g
        | None => (1 / Math_max 1 dimension)%float
        end in
      let sigma := Math_sqrt (1 / (2 * effectiveGamma))%float in
      Some (RbfKernelOptions sigma)
  | POLY => Some (PolynomialKernelOptions 3%float 1%float 1%float)
  | SIGMOID => Some (SigmoidKernelOptions 1%float 1%float)
  | LINEAR => None
  end.

(** The state cells of [Home]. *)
Record State : Type := {
  parsedRows : list ParsedRow;
  columns : list string;
  labelColumn : string;
  featureColumns : list string;
  status : string;
  trainingAccuracy : option number;
  models : option (list TrainedModel);
  predictionInput : gmap string string;
  prediction : string;
  trainingError : option string;
  gamma : option number;
  cost : number;
  kernel : KernelKey;
}.

Definition initialState : State := {|
  parsedRows := [];
  columns := [];
  labelColumn := EmptyString;
  featureColumns := [];
  status := "Ready for dataset";
  trainingAccuracy := None;
  models := None;
  predictionInput := ∅;
  prediction := EmptyString;
  trainingError := None;
  gamma := None;
  cost := 1%float;
  kernel := RBF;
|}.

Definition setStatus (v : string) (st : State) : State := {|
  parsedRows := parsedRows st; columns := columns st;
  labelColumn := labelColumn st; featureColumns := featureColumns st;
  status := v;
  trainingAccuracy := trainingAccuracy st; models := models st;
  predictionInput := predictionInput st; prediction := prediction st;
  trainingError := trainingError st; gamma := gamma st; cost := cost st;
  kernel := kernel st |}.

Definition setTrainingAccuracy (v : option number) (st : State) : State := {|
  parsedRows := parsedRows st; columns := columns st;
  labelColumn := labelColumn st; featureColumns := featureColumns st;
  status := status st;
  trainingAccuracy := v; models := models st;
  predictionInput := predictionInput st; prediction := prediction st;
  trainingError := trainingError st; gamma := gamma st; cost := cost st;
  kernel := kernel st |}.

Definition setModels (v : option (list TrainedModel)) (st : State) : State := {|
  parsedRows := parsedRows st; columns := columns st;
  labelColumn := labelColumn st; featureColumns := featureColumns st;
  status := status st;
  trainingAccuracy := trainingAccuracy st; models := v;
  predictionInput := predictionInput st; prediction := prediction st;
  trainingError := trainingError st; gamma := gamma st; cost := cost st;
  kernel := kernel st |}.

Definition setPrediction (v : string) (st : State) : State := {|
  parsedRows := parsedRows st; columns := columns st;
  labelColumn := labelColumn st; featureColumns := featureColumns st;
  status := status st;
  trainingAccuracy := trainingAccuracy st; models := models st;
  predictionInput := predictionInput st; prediction := v;
  trainingError := trainingError st; gamma := gamma st; cost := cost st;
  kernel := kernel st |}.

Definition setTrainingError (v : option string) (st : State) : State := {|
  parsedRows := parsedRows st; columns := columns st;
  labelColumn := labelColumn st; featureColumns := featureColumns st;
  status := status st;
  trainingAccuracy := trainingAccuracy st; models := models st;
  predictionInput := predictionInput st; prediction := prediction st;
  trainingError := v; gamma := gamma st; cost := cost st;
  kernel := kernel st |}.

Definition setGamma (v : option number) (st : State) : State := {|
  parsedRows := parsedRows st; columns := columns st;
  labelColumn := labelColumn st; featureColumns := featureColumns st;
  status := status st;
  trainingAccuracy := trainingAccuracy st; models := models st;
  predictionInput := predictionInput st; prediction := prediction st;
  trainingError := trainingError st; gamma := v; cost := cost st;
  kernel := kernel st |}.

(** *** [computeFeaturesAndLabels] (lines 172-193) *)

Definition dquote : string := String "034"%char EmptyString.

Definition configurationMissing : thrown :=
  ErrorObj "Dataset, features, or label configuration missing.".

(** [`Column "${column}" contains non-numeric values.`] *)
Definition nonNumericMessage (column : string) : string :=
  "Column " +:+ dquote +:+ column +:+ dquote +:+ " contains non-numeric values.".

(** The three precondition failures a caller may want to tell apart. *)
Inductive PreconditionFailure : Type :=
  | EmptyDataset
  | EmptyFeatureSet
  | MissingLabelColumn.

(** *** Reading a property of a row

    A row is a plain object: [row[name]] is the row's own property of that
    name, else the property of that name of [Object.prototype], else
    [undefined].  The finite map holds the own properties. *)

(** What [Object.prototype] has under a name: the accessor [__proto__],
    which reads as the prototype object itself, and built-in functions. *)
Inductive InheritedValue : Type :=
  | ObjectPrototypeObject
  | NativeFunction (name : string).

Definition Object_prototype (name : string) : option InheritedValue :=
  if String.eqb name "__proto__" then Some ObjectPrototypeObject
  else if String.eqb name "constructor" then Some (NativeFunction "Object")
  else if bool_decide
            (name ∈ ["hasOwnProperty"; "isPrototypeOf";
                     "propertyIsEnumerable"; "toLocaleString"; "toString";
                     "valueOf"; "__defineGetter__"; "__defineSetter__";
                     "__lookupGetter__"; "__lookupSetter__"])
  then Some (NativeFunction name)
  else None.

(** [String(value)] of an inherited value; a built-in function in the form
    V8 prints it. *)
Definition inheritedText (value : InheritedValue) : string :=
  match value with
  | ObjectPrototypeObject => "[object Object]"
  | NativeFunction name => "function " +:+ name +:+ "() { [native code] }"
  end.

(** [String(row[labelColumn])] *)
Definition labelText (row : ParsedRow) (labelColumn : string) : string :=
  match row !! labelColumn with
  | Some text => String_ (Some text)
  | None =>
      match Object_prototype labelColumn with
      | Some value => inheritedText value
      | None => String_ None
      end
  end.

(** The callback of [featureColumns.map] for one row.  [Number] turns an
    inherited value into NaN as it does [undefined], so for the number the
    own property decides. *)
Definition featureCell (row : ParsedRow) (column : string) : result number :=
  let value := parseFeatureValue (row !! column) in
  if Number_isFinite value then Ok value
  else Throw (ErrorObj (nonNumericMessage column)).

(** The [for (const row of parsedRows)] loop; [features] and [labels] are
    the two arrays it pushes to. *)
Fixpoint extractRows (featureColumns : list string) (labelColumn : string)
    (rows : list ParsedRow) (features : list (list number))
    (labels : list string) : result (list (list number) * list string) :=
  match rows with
  | [] => Ok (features, labels)
  | row :: rest =>
      match mapE (featureCell row) featureColumns with
      | Ok featureVector =>
          extractRows featureColumns labelColumn rest
            (features ++ [featureVector])
            (labels ++ [labelText row labelColumn])
      | Throw e => Throw e
      end
  end.

Definition computeFeaturesAndLabels (st : State)
    : result (list (list number) * list string) :=
  if Nat.eqb (length (parsedRows st)) 0
     || Nat.eqb (length (featureColumns st)) 0
     || String.eqb (labelColumn st) EmptyString
  then Throw configurationMissing
  else extractRows (featureColumns st) (labelColumn st) (parsedRows st) [] [].

(** *** The decision loop (lines 240-252 and, verbatim, 290-301) *)

Definition modelScore (model : TrainedModel) (vector : list number) : number :=
  let margin := marginOne (svm model) vector in
  if Number_isFinite margin then margin
  else predictOne (svm model) vector.

Fixpoint bestLabelLoop (models : list TrainedModel) (vector : list number)
    (bestLabel : string) (bestScore : number) : string :=
  match models with
  | [] => bestLabel
  | model :: rest =>
      let score := modelScore model vector in
      if gt score bestScore
      then bestLabelLoop rest vector (label model) score
      else bestLabelLoop rest vector bestLabel bestScore
  end.

Definition selectBestLabel (models : list TrainedModel)
    (vector : list number) : string :=
  bestLabelLoop models vector EmptyString negInfinity.

(** *** [trainModel] (lines 195-272) *)

(** [new Set(labels)] keeps insertion order; [Array.from] lists it. *)
Definition Set_add (s : list string) (x : string) : list string :=
  if bool_decide (x ∈ s) then s else s ++ [x].

Definition Set_from (l : list string) : list string := foldl Set_add [] l.

Definition binaryLabels (labels : list string) (targetLabel : string)
    : list number :=
  map (fun value =>
         if bool_decide (value = targetLabel) then 1%float else (-1)%float)
      labels.

Definition svmOptions (st : State) (dimension : nat) : SVMOptions := {|
  C := cost st;
  tol := 1e-4%float;
  maxPasses := 10%float;
  maxIterations := 10000%float;
  MlSvm.kernel := KERNEL_MAP (kernel st);
  kernelOptions :=
    resolveKernelOptions (kernel st) (gamma st) (number_of_nat dimension);
|}.

(** What the [try] block has computed when it reaches the [await]. *)
Record TrainingPlan : Type := {
  planFeatures : list (list number);
  planLabels : list string;
  planUniqueLabels : list string;
  planOptions : SVMOptions;
}.

(** Lines 197-213. *)
Definition prepareTraining (st : State) : result TrainingPlan :=
  match computeFeaturesAndLabels st with
  | Throw e => Throw e
  | Ok (features, labels) =>
      if Nat.eqb (length features) 0
      then Throw (ErrorObj "No training data available.")
      else
        let uniqueLabels := Set_from labels in
        if Nat.ltb (length uniqueLabels) 2
        then Throw (ErrorObj "At least two unique labels are required.")
        else
          let dimension :=
            match features with
            | v :: _ => length v
            | [] => 0
            end in
          if Nat.eqb dimension 0
          then Throw (ErrorObj "Select at least one feature column.")
          else Ok {| planFeatures := features;
                     planLabels := labels;
                     planUniqueLabels := uniqueLabels;
                     planOptions := svmOptions st dimension |}
  end.

(** [predictions.reduce((count, value, index) => ...)] (lines 255-258). *)
Fixpoint countCorrect (predictions labels : list string) (index : nat)
    (count : number) : number :=
  match predictions with
  | [] => count
  | value :: rest =>
      countCorrect rest labels (S index)
        (count + (if bool_decide (labels !! index = Some value)
                  then 1 else 0))%float
  end.

(** The [catch] clause of [trainModel]. *)
Definition catchTraining (error : thrown) (st : State) : State :=
  setModels None
    (setTrainingError
       (Some match error with
             | ErrorObj message => message
             | OtherValue => "Training failed unexpectedly."
             end)
       (setStatus "Training failed" st)).

(** How a call of the [async] function ends: its promise is fulfilled with
    the state cells as shown, or it never settles because the awaited promise
    is never resolved, the exception having left the timer callback
    uncaught. *)
Inductive Settlement : Type :=
  | Fulfilled (st : State)
  | NeverSettles (st : State) (uncaught : thrown).

Section WithTrainer.

Variable train : Trainer.

(** The body of the timer callback: [for (const targetLabel of
    uniqueLabels)], pushing to [trainedModels]. *)
Fixpoint trainLoop (options : SVMOptions) (features : list (list number))
    (labels uniqueLabels : list string) (trainedModels : list TrainedModel)
    : result (list TrainedModel) :=
  match uniqueLabels with
  | [] => Ok trainedModels
  | targetLabel :: rest =>
      match train options features (binaryLabels labels targetLabel) with
      | Ok svm =>
          trainLoop options features labels rest
            (trainedModels ++ [{| label := targetLabel; svm := svm |}])
      | Throw e => Throw e
      end
  end.

Definition trainModel (st : State) : Settlement :=
  match prepareTraining st with
  | Throw e => Fulfilled (catchTraining e st)
  | Ok plan =>
      let st1 := setStatus "Training…" st in
      match trainLoop (planOptions plan) (planFeatures plan) (planLabels plan)
              (planUniqueLabels plan) [] with
      | Throw e => NeverSettles st1 e
      | Ok trainedModels =>
          let predictions :=
            map (selectBestLabel trainedModels) (planFeatures plan) in
          let correct := countCorrect predictions (planLabels plan) 0 0%float in
          Fulfilled
            (setTrainingError None
               (setPrediction EmptyString
                  (setStatus "Model trained"
                     (setTrainingAccuracy
                        (Some (correct / number_of_nat (length predictions))%float)
                        (setModels (Some trainedModels) st1)))))
      end
  end.

End WithTrainer.

(** *** [handlePredict] (lines 274-309) *)

Definition predictionInputMessage (column : string) : string :=
  "Prediction input " +:+ dquote +:+ column +:+ dquote +:+ " must be numeric.".

(** The callback of [featureColumns.map] in [handlePredict]; as for a row,
    an inherited value and [undefined] both parse to NaN. *)
Definition predictionCell (st : State) (column : string) : result number :=
  let parsed := parseFeatureValue (predictionInput st !! column) in
  if Number_isFinite parsed then Ok parsed
  else Throw (ErrorObj (predictionInputMessage column)).

Definition handlePredict (st : State) : State :=
  match models st with
  | None => setPrediction "Train a model before predicting." st
  | Some ms =>
      if Nat.eqb (length ms) 0 || Nat.eqb (length (featureColumns st)) 0
      then setPrediction "Train a model before predicting." st
      else
        match mapE (predictionCell st) (featureColumns st) with
        | Ok vector => setPrediction (selectBestLabel ms vector) st
        | Throw (ErrorObj message) => setPrediction message st
        | Throw OtherValue => setPrediction "Prediction failed." st
        end
  end.

(** *** The [onChange] handler of the gamma field (lines 486-500) *)

Definition handleGammaChange (raw : string) (st : State) : State :=
  if Nat.eqb (String.length raw) 0
  then setPrediction EmptyString
         (setModels None (setTrainingAccuracy None (setGamma None st)))
  else
    let value := Number (Some raw) in
    setPrediction EmptyString
      (setModels None
         (setTrainingAccuracy None
            (setGamma (if Number_isFinite value && gt value 0%float
                       then Some value else None) st))).

End Page.

(* ===================================================================== *)
(** ** Classifiers and component states used as concrete inputs *)
(* ===================================================================== *)

Module Examples.
Import JsNumber Exn MlSvm Page.

(** A trained instance with constant outputs. *)
Definition constantSvm (margin code : number) : SVM := {|
  predictOne := fun _ => code;
  marginOne := fun _ => margin;
|}.

Fixpoint dot (w v : list number) : number :=
  match w, v with
  | a :: w', b :: v' => (a * b + dot w' v')%float
  | _, _ => 0%float
  end.

Fixpoint addScaled (y : number) (x w : list number) : list number :=
  match x, w with
  | a :: x', b :: w' => (b + y * a)%float :: addScaled y x' w'
  | a :: x', [] => (y * a)%float :: addScaled y x' []
  | [], _ => w
  end.

Fixpoint signedSum (features : list (list number)) (labels : list number)
    : list number :=
  match features, labels with
  | x :: fs, y :: ls => addScaled y x (signedSum fs ls)
  | _, _ => []
  end.

(** A stand-in for the library: the weight vector is the label-signed sum
    of the rows, the margin its inner product with the query, the class code
    the sign of the margin. *)
Definition signedSumTrainer : Trainer := fun _ features labels =>
  let w := signedSum features labels in
  Ok {| marginOne := fun v => dot w v;
        predictOne := fun v => if gt (dot w v) 0%float
                               then 1%float else (-1)%float |}.

(** A trainer whose [train] throws when the first row is a negative
    example, as it is for every label but the first one seen. *)
Definition rejectingTrainer : Trainer := fun options features labels =>
  match labels with
  | y :: _ =>
      if gt 0%float y then Throw (ErrorObj "training did not converge")
      else signedSumTrainer options features labels
  | [] => Throw (ErrorObj "training did not converge")
  end.

Definition row (cells : list (string * string)) : ParsedRow :=
  list_to_map cells.

Definition loaded (rows : list ParsedRow) (cols features : list string)
    (labelCol : string) : State := {|
  parsedRows := rows;
  columns := cols;
  labelColumn := labelCol;
  featureColumns := features;
  status := "Dataset loaded";
  trainingAccuracy := None;
  models := None;
  predictionInput := ∅;
  prediction := EmptyString;
  trainingError := None;
  gamma := None;
  cost := 1%float;
  kernel := LINEAR;
|}.

(** Two features, label [A] where [x > 0] and [B] where [x < 0]. *)
Definition xyRows : list ParsedRow :=
  [ row [("x", "2"); ("y", "1"); ("class", "A")];
    row [("x", "-3"); ("y", "0.5"); ("class", "B")];
    row [("x", "1.5"); ("y", "-1"); ("class", "A")];
    row [("x", "-1"); ("y", "2"); ("class", "B")] ].

Definition xyState : State := loaded xyRows ["x"; "y"; "class"] ["x"; "y"] "class".

(** One class only. *)
Definition oneClassState : State :=
  loaded [ row [("x", "2"); ("class", "A")]; row [("x", "3"); ("class", "A")] ]
         ["x"; "class"] ["x"] "class".

(** The cell of column [y] is not a number in row 0, respectively row 1. *)
Definition badRow0State : State :=
  loaded [ row [("x", "1"); ("y", "n/a"); ("class", "A")];
           row [("x", "2"); ("y", "4"); ("class", "B")] ]
         ["x"; "y"; "class"] ["x"; "y"] "class".

Definition badRow1State : State :=
  loaded [ row [("x", "1"); ("y", "3"); ("class", "A")];
           row [("x", "2"); ("y", "n/a"); ("class", "B")] ]
         ["x"; "y"; "class"] ["x"; "y"] "class".

(** A blank cell in column [y] of row 1. *)
Definition blankCellState : State :=
  loaded [ row [("x", "1"); ("y", "3"); ("class", "A")];
           row [("x", "2"); ("y", EmptyString); ("class", "B")] ]
         ["x"; "y"; "class"] ["x"; "y"] "class".

(** The three configurations the guard of [computeFeaturesAndLabels]
    rejects, each failing one test only. *)
Definition noRowsState : State := loaded [] ["x"; "class"] ["x"] "class".

Definition noFeaturesState : State :=
  loaded [ row [("x", "1"); ("class", "A")] ] ["x"; "class"] [] "class".

Definition noLabelState : State :=
  loaded [ row [("x", "1"); ("class", "A")] ] ["x"; "class"] ["x"] EmptyString.

(** A label column that no row has. *)
Definition absentLabelState : State :=
  loaded [ row [("x", "1"); ("class", "A")] ] ["x"; "class"] ["x"] "species".

(** A committed model of three classifiers, the first two with the same
    score, and a prediction input. *)
Definition tiedModels : list TrainedModel :=
  [ {| label := "B"; svm := constantSvm 0.5%float 1%float |};
    {| label := "A"; svm := constantSvm 0.5%float 1%float |};
    {| label := "C"; svm := constantSvm 0.25%float 1%float |} ].


Definition trained (ms : list TrainedModel) (input : list (string * string))
    : State := {|
  parsedRows := xyRows;
  columns := ["x"; "y"; "class"];
  labelColumn := "class";
  featureColumns := ["x"; "y"];
  status := "Model trained";
  trainingAccuracy := Some 1%float;
  models := Some ms;
  predictionInput := list_to_map input;
  prediction := EmptyString;
  trainingError := None;
  gamma := None;
  cost := 1%float;
  kernel := LINEAR;
|}.

Definition tiedState : State := trained tiedModels [("x", "5"); ("y", "0")].

End Examples.

(* ===================================================================== *)
(** ** The remaining handlers of [Home] *)
(* ===================================================================== *)

Module Handlers.
Import JsNumber Exn MlSvm Page.

Definition setParsedRows (v : list ParsedRow) (st : State) : State := {|
  parsedRows := v; columns := columns st;
  labelColumn := labelColumn st; featureColumns := featureColumns st;
  status := status st;
  trainingAccuracy := trainingAccuracy st; models := models st;
  predictionInput := predictionInput st; prediction := prediction st;
  trainingError := trainingError st; gamma := gamma st; cost := cost st;
  kernel := kernel st |}.

Definition setColumns (v : list string) (st : State) : State := {|
  parsedRows := parsedRows st; columns := v;
  labelColumn := labelColumn st; featureColumns := featureColumns st;
  status := status st;
  trainingAccuracy := trainingAccuracy st; models := models st;
  predictionInput := predictionInput st; prediction := prediction st;
  trainingError := trainingError st; gamma := gamma st; cost := cost st;
  kernel := kernel st |}.

Definition setLabelColumn (v : string) (st : State) : State := {|
  parsedRows := parsedRows st; columns := columns st;
  labelColumn := v; featureColumns := featureColumns st;
  status := status st;
  trainingAccuracy := trainingAccuracy st; models := models st;
  predictionInput := predictionInput st; prediction := prediction st;
  trainingError := trainingError st; gamma := gamma st; cost := cost st;
  kernel := kernel st |}.

Definition setFeatureColumns (v : list string) (st : State) : State := {|
  parsedRows := parsedRows st; columns := columns st;
  labelColumn := labelColumn st; featureColumns := v;
  status := status st;
  trainingAccuracy := trainingAccuracy st; models := models st;
  predictionInput := predictionInput st; prediction := prediction st;
  trainingError := trainingError st; gamma := gamma st; cost := cost st;
  kernel := kernel st |}.

Definition setPredictionInput (v : gmap string string) (st : State) : State := {|
  parsedRows := parsedRows st; columns := columns st;
  labelColumn := labelColumn st; featureColumns := featureColumns st;
  status := status st;
  trainingAccuracy := trainingAccuracy st; models := models st;
  predictionInput := v; prediction := prediction st;
  trainingError := trainingError st; gamma := gamma st; cost := cost st;
  kernel := kernel st |}.

Definition setCost (v : number) (st : State) : State := {|
  parsedRows := parsedRows st; columns := columns st;
  labelColumn := labelColumn st; featureColumns := featureColumns st;
  status := status st;
  trainingAccuracy := trainingAccuracy st; models := models st;
  predictionInput := predictionInput st; prediction := prediction st;
  trainingError := trainingError st; gamma := gamma st; cost := v;
  kernel := kernel st |}.

Definition setKernel (v : KernelKey) (st : State) : State := {|
  parsedRows := parsedRows st; columns := columns st;
  labelColumn := labelColumn st; featureColumns := featureColumns st;
  status := status st;
  trainingAccuracy := trainingAccuracy st; models := models st;
  predictionInput := predictionInput st; prediction := prediction st;
  trainingError := trainingError st; gamma := gamma st; cost := cost st;
  kernel := v |}.

(** *** [handleCSVContent] (lines 90-130) *)

(** What the component reads of the value [Papa.parse] returns: the rows,
    the errors (of which only the first message is used, behind [?.] and
    [??]) and [meta.fields]. *)
Record ParseError : Type := {
  errorMessage : option string;
}.

Record ParseResult : Type := {
  data : list ParsedRow;
  errors : list ParseError;
  fields : option (list string);
}.

(** [Papa.parse(csv, { header: true, skipEmptyLines: true, dynamicTyping:
    false })]; the implementation is not part of this repository. *)
Definition Parser : Type := string -> ParseResult.

(** [Object.values(row).some((value) => value !== "")] *)
Definition someValueNotEmpty (row : ParsedRow) : bool :=
  existsb (fun kv => negb (String.eqb (snd kv) EmptyString)) (map_to_list row).

(** [Object.fromEntries(features.map((column) => [column, ""]))] *)
Definition blankInputs (features : list string) : gmap string string :=
  list_to_map (map (fun column => (column, EmptyString)) features).

Section WithParser.

Variable Papa_parse : Parser.

Definition handleCSVContent (csv : string) (st : State) : State :=
  let result := Papa_parse csv in
  match errors result with
  | e :: _ =>
      setTrainingError
        (Some ("CSV parsing error: "
               +:+ default "Unknown issue" (errorMessage e)))
        st
  | [] =>
      let rows := filter (fun row => someValueNotEmpty row = true) (data result) in
      let detectedColumns := default [] (fields result) in
      if Nat.eqb (length rows) 0 || Nat.eqb (length detectedColumns) 0
      then setTrainingError (Some "No rows or columns detected in dataset.") st
      else
        let defaultLabel :=
          default EmptyString
                  (detectedColumns !! (length detectedColumns - 1)) in
        let initialFeatures :=
          filter (fun column => column <> defaultLabel) detectedColumns in
        setPrediction EmptyString
          (setModels None
             (setTrainingAccuracy None
                (setStatus "Dataset loaded"
                   (setPredictionInput (blankInputs initialFeatures)
                      (setTrainingError None
                         (setFeatureColumns initialFeatures
                            (setLabelColumn defaultLabel
                               (setColumns detectedColumns
                                  (setParsedRows rows st)))))))))
  end.

(** *** [handleFileUpload] (lines 132-146) *)

(** [file] is [None] when the event carries no file, and otherwise what
    the [FileReader] hands to [onload]: the text, or [None] for a result that
    is not a string. *)
Definition handleFileUpload (file : option (option string)) (st : State)
    : State :=
  match file with
  | None => st
  | Some (Some csvContent) => handleCSVContent csvContent st
  | Some None => setTrainingError (Some "Unsupported file encoding.") st
  end.

End WithParser.

(** *** [handleFeatureToggle] (lines 148-170) *)

Definition handleFeatureToggle (column : string) (st : State) : State :=
  let current := featureColumns st in
  let isSelected := bool_decide (column ∈ current) in
  let updated :=
    if isSelected then filter (fun item => item <> column) current
    else current ++ [column] in
  let nextInput :=
    if isSelected then delete column (predictionInput st)
    else <[column := EmptyString]> (predictionInput st) in
  setFeatureColumns updated
    (setPrediction EmptyString
       (setTrainingAccuracy None
          (setModels None (setPredictionInput nextInput st)))).

(** *** The [onChange] handlers of the form (lines 372-387, 445-450,
    467-473, 558-563) *)

Definition handleLabelChange (nextLabel : string) (st : State) : State :=
  let nextFeatures := filter (fun column => column <> nextLabel) (columns st) in
  setPrediction EmptyString
    (setModels None
       (setTrainingAccuracy None
          (setPredictionInput (blankInputs nextFeatures)
             (setFeatureColumns nextFeatures (setLabelColumn nextLabel st))))).

Definition handleKernelChange (value : KernelKey) (st : State) : State :=
  setPrediction EmptyString
    (setModels None (setTrainingAccuracy None (setKernel value st))).

Definition handleCostChange (raw : string) (st : State) : State :=
  let value := Number (Some raw) in
  setPrediction EmptyString
    (setModels None
       (setTrainingAccuracy None
          (setCost (if Number_isFinite value && gt value 0%float
                    then value else 1%float) st))).

Definition handlePredictionInputChange (column value : string) (st : State)
    : State :=
  setPredictionInput (<[column := value]> (predictionInput st)) st.

(** *** The session: which handler the rendered page can run *)

(** The controls of the page.  The sample button loads the built-in text
    and the file input any text; the label menu offers the dataset's columns
    and is rendered once there are columns; a toggle button exists for each
    column other than the label column; the train button is disabled without
    feature columns or label column; an input exists for each selected feature
    column; the predict button is disabled without a model. *)
Inductive Event : Type :=
  | LoadCSV (csv : string)
  | UploadFile (file : option (option string))
  | ChangeLabel (nextLabel : string)
  | ToggleFeature (column : string)
  | ChangeKernel (value : KernelKey)
  | ChangeCost (raw : string)
  | ChangeGamma (raw : string)
  | EditInput (column value : string)
  | Train
  | Predict.

Definition enabled (ev : Event) (st : State) : Prop :=
  match ev with
  | ChangeLabel nextLabel => nextLabel ∈ columns st
  | ToggleFeature column => column ∈ columns st /\ column <> labelColumn st
  | EditInput column _ => column ∈ featureColumns st
  | Train => featureColumns st <> [] /\ labelColumn st <> EmptyString
  | Predict => models st <> None
  | LoadCSV _ | UploadFile _ | ChangeKernel _ | ChangeCost _
  | ChangeGamma _ => True
  end.

(** The cells as the handler leaves them; for [Train], whether or not the
    call settles. *)
Definition after (Papa_parse : Parser) (train : Trainer) (ev : Event)
    (st : State) : State :=
  match ev with
  | LoadCSV csv => handleCSVContent Papa_parse csv st
  | UploadFile file => handleFileUpload Papa_parse file st
  | ChangeLabel nextLabel => handleLabelChange nextLabel st
  | ToggleFeature column => handleFeatureToggle column st
  | ChangeKernel value => handleKernelChange value st
  | ChangeCost raw => handleCostChange raw st
  | ChangeGamma raw => handleGammaChange raw st
  | EditInput column value => handlePredictionInputChange column value st
  | Train =>
      match trainModel train st with
      | Fulfilled st' => st'
      | NeverSettles st' _ => st'
      end
  | Predict => handlePredict st
  end.

(** The states a session can be in: from the initial cells, any sequence
    of enabled events. *)
Inductive reachable (Papa_parse : Parser) (train : Trainer) : State -> Prop :=
  | reachable_initial : reachable Papa_parse train initialState
  | reachable_after (ev : Event) (st : State) :
      reachable Papa_parse train st ->
      enabled ev st ->
      reachable Papa_parse train (after Papa_parse train ev st).

(** What every state of a session satisfies. *)
Record wellFormed (st : State) : Prop := {
  wf_inputs : dom (predictionInput st) = list_to_set (featureColumns st);
  wf_label_not_feature : labelColumn st ∉ featureColumns st;
  wf_features_are_columns :
    forall column, column ∈ featureColumns st -> column ∈ columns st;
  wf_label_is_column : columns st <> [] -> labelColumn st ∈ columns st;
  wf_rows_iff_columns : parsedRows st = [] <-> columns st = [];
  wf_rows_not_blank :
    forall row, row ∈ parsedRows st ->
      exists column value, row !! column = Some value /\ value <> EmptyString;
  wf_gamma :
    forall g, gamma st = Some g ->
      Number_isFinite g = true /\ gt g 0%float = true;
  wf_cost : Number_isFinite (cost st) = true /\ gt (cost st) 0%float = true;
  wf_models :
    forall ms, models st = Some ms ->
      2 <= length ms /\ NoDup (map label ms);
}.

End Handlers.

(* ===================================================================== *)
(** ** More concrete inputs *)
(* ===================================================================== *)

Module HandlerExamples.
Import JsNumber Exn MlSvm Page Handlers Examples.

(** A parser that answers with the rows below whatever the text. *)
Definition xyParse : Parser := fun _ => {|
  data := xyRows ++ [row [("x", EmptyString); ("y", EmptyString);
                          ("class", EmptyString)]];
  errors := [];
  fields := Some ["x"; "y"; "class"];
|}.

(** A one-column dataset. *)
Definition oneColumnParse : Parser := fun _ => {|
  data := [row [("class", "A")]; row [("class", "B")]];
  errors := [];
  fields := Some ["class"];
|}.

(** A parse that reports an error. *)
Definition failingParse : Parser := fun _ => {|
  data := [];
  errors := [ {| errorMessage := Some "Unable to auto-detect delimiter" |} ];
  fields := None;
|}.

Definition xyLoaded : State := handleCSVContent xyParse "x,y,class" initialState.

(** The cells after loading and one training run with the stand-in
    library. *)
Definition xyTrained : State :=
  after xyParse signedSumTrainer Train xyLoaded.

(** Classifiers whose margin and class code are both NaN. *)
Definition brokenModels : list TrainedModel :=
  [ {| label := "A"; svm := constantSvm NaN NaN |};
    {| label := "B"; svm := constantSvm NaN NaN |} ].

(** A label column named [__proto__]: no row has it as an own property. *)
Definition protoLabelState : State :=
  loaded [ row [("x", "1")]; row [("x", "2")] ]
         ["x"; "__proto__"] ["x"] "__proto__".

(** A committed model and a prediction input whose [y] is not a number. *)
Definition badInputState : State :=
  trained tiedModels [("x", "5"); ("y", "high")].

End HandlerExamples.

(* ===================================================================== *)
(** ** The model at work *)
(* ===================================================================== *)

Module Runs.
Import JsNumber Exn MlSvm Page Examples.

Example Number_samples :
  map StringToNumber
      [EmptyString; "  "; " 3.5 "; "1e3"; "0x1F"; ".5"; "-Infinity";
       "n/a"; "12px"; "1e"; "-0x1F"]
  = [0; 0; 3.5; 1000; 31; 0.5; neg_infinity; nan; nan; nan; nan]%float.
Proof. vm_compute. reflexivity. Qed.

Example Number_undefined : Number None = NaN.
Proof. reflexivity. Qed.

Example extraction_of_xyState :
  computeFeaturesAndLabels xyState
  = Ok ([[2; 1]; [-3; 0.5]; [1.5; -1]; [-1; 2]]%float, ["A"; "B"; "A"; "B"]).
Proof. vm_compute. reflexivity. Qed.

Example Number_unicode_white_space :
  map StringToNumber
      [String "194" (String "160" "7");
       String "239" (String "187" (String "191" "7"));
       "7" +:+ String "226" (String "128" (String "168" EmptyString));
       String "227" (String "128" (String "128" EmptyString))]
  = [7; 7; 7; 0]%float.
Proof. vm_compute. reflexivity. Qed.

Example label_of_an_inherited_name :
  map (labelText (Examples.row [("x", "1")]))
      ["x"; "species"; "__proto__"; "constructor"; "toString"]
  = ["1"; "undefined"; "[object Object]";
     "function Object() { [native code] }";
     "function toString() { [native code] }"].
Proof. vm_compute. reflexivity. Qed.

Example first_seen_order :
  Set_from ["b"; "a"; "b"; "c"; "a"] = ["b"; "a"; "c"].
Proof. vm_compute. reflexivity. Qed.

Example training_of_xyState :
  exists st',
    trainModel signedSumTrainer xyState = Fulfilled st' /\
    status st' = "Model trained" /\
    option_map (map label) (models st') = Some ["A"; "B"] /\
    trainingAccuracy st' = Some 1%float.
Proof. eexists. vm_compute. repeat split. Qed.

Example tie_goes_to_the_earlier_pair :
  prediction (handlePredict tiedState) = "B".
Proof. vm_compute. reflexivity. Qed.

End Runs.

(* ===================================================================== *)
(** ** The order of JavaScript numbers *)
(* ===================================================================== *)

Module JsNumberFacts.
Import JsNumber.

Lemma SFltb_rank (f g : spec_float) :
  f <> S754_nan -> g <> S754_nan ->
  SFltb f g = true <-> rank_lt (rank f) (rank g).
Proof.
  intros Hf Hg. unfold SFltb, SFcompare.
  destruct f as [sf|sf| |sf mf ef], g as [sg|sg| |sg mg eg]; try congruence;
    try destruct sf; try destruct sg; simpl;
    try (split; [discriminate|lia]); try (split; [intros _; lia | reflexivity]).
  all: change (PosDef.Pos.compare_cont Eq mf mg) with (Pos.compare mf mg).
  all: destruct (Z.compare_spec ef eg); destruct (Pos.compare_spec mf mg); simpl;
    try (split; [discriminate|lia]); try (split; [intros _; lia | reflexivity]).
Qed.

Lemma SFltb_ordered (f g : spec_float) :
  SFltb f g = true -> f <> S754_nan /\ g <> S754_nan.
Proof.
  unfold SFltb, SFcompare.
  destruct f, g; try discriminate; intros _; split; discriminate.
Qed.

Lemma rank_lt_trans a b c : rank_lt a b -> rank_lt b c -> rank_lt a c.
Proof. destruct a as [[? ?] ?], b as [[? ?] ?], c as [[? ?] ?]; simpl; lia. Qed.

Lemma rank_lt_cotrans a b c : ~ rank_lt a b -> rank_lt a c -> rank_lt b c.
Proof. destruct a as [[? ?] ?], b as [[? ?] ?], c as [[? ?] ?]; simpl; lia. Qed.

Lemma rank_lt_irrefl a : ~ rank_lt a a.
Proof. destruct a as [[? ?] ?]; simpl; lia. Qed.

(** [c > b] and [b > a] give [c > a]. *)
Lemma gt_trans (a b c : number) :
  gt b a = true -> gt c b = true -> gt c a = true.
Proof.
  unfold gt. rewrite !FloatAxioms.ltb_spec. intros Hab Hbc.
  destruct (SFltb_ordered _ _ Hab) as [Ha Hb].
  destruct (SFltb_ordered _ _ Hbc) as [_ Hc].
  apply SFltb_rank in Hab; [|done..]. apply SFltb_rank in Hbc; [|done..].
  apply SFltb_rank; [done..|]. eapply rank_lt_trans; eassumption.
Qed.

Lemma gt_irrefl (a : number) : gt a a = false.
Proof.
  unfold gt. rewrite FloatAxioms.ltb_spec.
  destruct (SFltb (Prim2SF a) (Prim2SF a)) eqn:E; [|done].
  destruct (SFltb_ordered _ _ E) as [Ha _].
  apply SFltb_rank in E; [|done..]. destruct (rank_lt_irrefl _ E).
Qed.

Lemma gt_asym (a b : number) : gt b a = true -> gt a b = false.
Proof.
  intros H. destruct (gt a b) eqn:E; [|done].
  pose proof (gt_trans _ _ _ H E) as F. rewrite gt_irrefl in F. done.
Qed.

(** When [b] is not above [a] and is not NaN, whatever is above [a] is
    above [b]. *)
Lemma gt_cotrans (a b c : number) :
  ordered b -> gt b a = false -> gt c a = true -> gt c b = true.
Proof.
  unfold gt, ordered. rewrite !FloatAxioms.ltb_spec. intros Hb Hab Hac.
  destruct (SFltb_ordered _ _ Hac) as [Ha Hc].
  apply SFltb_rank in Hac; [|done..].
  apply SFltb_rank; [done..|].
  apply (rank_lt_cotrans (rank (Prim2SF a))); [|done].
  intros F. apply SFltb_rank in F; [|done..]. congruence.
Qed.

Lemma isFinite_Prim2SF (x : number) :
  Number_isFinite x = true ->
  (exists s, Prim2SF x = S754_zero s) \/
  (exists s m e, Prim2SF x = S754_finite s m e).
Proof.
  unfold Number_isFinite, is_finite, is_nan, is_infinity.
  rewrite !FloatAxioms.eqb_spec, FloatAxioms.abs_spec.
  destruct (Prim2SF x) as [s|s| |s m e] eqn:E; simpl; eauto.
  - destruct s; simpl; intros H; discriminate.
  - discriminate.
Qed.

Lemma isFinite_ordered (x : number) : Number_isFinite x = true -> ordered x.
Proof.
  intros H. unfold ordered.
  destruct (isFinite_Prim2SF x H) as [[s E]|(s & m & e & E)]; rewrite E; done.
Qed.

Lemma negInfinity_ordered : ordered negInfinity.
Proof. unfold ordered. vm_compute. discriminate. Qed.

(** Every finite number is above [-Infinity]. *)
Lemma isFinite_gt_negInfinity (x : number) :
  Number_isFinite x = true -> gt x negInfinity = true.
Proof.
  intros H. unfold gt. rewrite FloatAxioms.ltb_spec.
  replace (Prim2SF negInfinity) with (S754_infinity true) by (vm_compute; reflexivity).
  destruct (isFinite_Prim2SF x H) as [[s E]|(s & m & e & E)]; rewrite E; done.
Qed.

End JsNumberFacts.

(* ===================================================================== *)
(** ** The decision loop *)
(* ===================================================================== *)

Module DecisionFacts.
Import JsNumber Exn MlSvm Page JsNumberFacts.

Lemma codes_finite (x : number) :
  x = 1%float \/ x = (-1)%float -> Number_isFinite x = true.
Proof. intros [-> | ->]; reflexivity. Qed.

(** The score is finite as soon as the class code is one of the two codes
    whenever the margin is not finite. *)
Lemma modelScore_finite (m : TrainedModel) (vector : list number) :
  (Number_isFinite (marginOne (svm m) vector) = false ->
   predictOne (svm m) vector = 1%float \/
   predictOne (svm m) vector = (-1)%float) ->
  Number_isFinite (modelScore m vector) = true.
Proof.
  intros H. unfold modelScore.
  destruct (Number_isFinite (marginOne (svm m) vector)) eqn:E; [done|].
  apply codes_finite, H. reflexivity.
Qed.

(** The loop from any point on: either no remaining model beats the
    running best and the running label stands, or the result is the label of
    the first of the remaining models whose score is the greatest. *)
Lemma bestLabelLoop_cases (rest : list TrainedModel) (vector : list number) :
  (forall m, m ∈ rest -> Number_isFinite (modelScore m vector) = true) ->
  forall bestLabel bestScore, ordered bestScore ->
  (bestLabelLoop rest vector bestLabel bestScore = bestLabel /\
   forall m, m ∈ rest -> gt (modelScore m vector) bestScore = false)
  \/
  (exists i m,
     rest !! i = Some m /\
     bestLabelLoop rest vector bestLabel bestScore = label m /\
     gt (modelScore m vector) bestScore = true /\
     (forall j m', rest !! j = Some m' ->
        gt (modelScore m' vector) (modelScore m vector) = false) /\
     (forall j m', j < i -> rest !! j = Some m' ->
        gt (modelScore m vector) (modelScore m' vector) = true)).
Proof.
  induction rest as [|model rest IH]; intros Hfin bestLabel bestScore Hord.
  - left. split; [reflexivity|]. intros m Hm. inversion Hm.
  - assert (Hs : Number_isFinite (modelScore model vector) = true)
      by (apply Hfin; left).
    assert (Hrest : forall m, m ∈ rest ->
              Number_isFinite (modelScore m vector) = true)
      by (intros m Hm; apply Hfin; right; exact Hm).
    simpl. destruct (gt (modelScore model vector) bestScore) eqn:Hgt.
    + right.
      destruct (IH Hrest (label model) (modelScore model vector)
                  (isFinite_ordered _ Hs))
        as [[Hr Hno] | (i & m & Hi & Hr & Hbeat & Hmax & Hfirst)].
      * exists 0, model. repeat split; [done..| |].
        -- intros [|j] m' Hj; simpl in Hj.
           ++ injection Hj as <-. apply gt_irrefl.
           ++ apply Hno. eapply list_elem_of_lookup_2; eassumption.
        -- intros j m' Hlt. lia.
      * exists (S i), m. repeat split; [done..| | |].
        -- eapply gt_trans; eassumption.
        -- intros [|j] m' Hj; simpl in Hj.
           ++ injection Hj as <-. apply gt_asym. exact Hbeat.
           ++ eapply Hmax; eassumption.
        -- intros [|j] m' Hlt Hj; simpl in Hj.
           ++ injection Hj as <-. exact Hbeat.
           ++ apply (Hfirst j); [lia|done].
    + destruct (IH Hrest bestLabel bestScore Hord)
        as [[Hr Hno] | (i & m & Hi & Hr & Hbeat & Hmax & Hfirst)].
      * left. split; [done|]. intros m Hm.
        apply elem_of_cons in Hm as [-> | Hm]; [done|auto].
      * right. exists (S i), m. repeat split; [done..| |].
        -- intros [|j] m' Hj; simpl in Hj.
           ++ injection Hj as <-.
              destruct (gt (modelScore model vector) (modelScore m vector)) eqn:E;
                [|done].
              pose proof (gt_trans _ _ _ Hbeat E) as F. congruence.
           ++ eapply Hmax; eassumption.
        -- intros [|j] m' Hlt Hj; simpl in Hj.
           ++ injection Hj as <-.
              apply (gt_cotrans bestScore); [|done..].
              apply isFinite_ordered, Hs.
           ++ apply (Hfirst j); [lia|done].
Qed.

(** Started from the sentinel and [-Infinity] on a model that is not empty
    and has finite scores, the loop is always in the second case. *)
Lemma selectBestLabel_first_greatest (ms : list TrainedModel)
    (vector : list number) :
  ms <> [] ->
  (forall m, m ∈ ms -> Number_isFinite (modelScore m vector) = true) ->
  exists i m,
    ms !! i = Some m /\
    selectBestLabel ms vector = label m /\
    (forall j m', ms !! j = Some m' ->
       gt (modelScore m' vector) (modelScore m vector) = false) /\
    (forall j m', j < i -> ms !! j = Some m' ->
       gt (modelScore m vector) (modelScore m' vector) = true).
Proof.
  intros Hne Hfin. unfold selectBestLabel.
  destruct (bestLabelLoop_cases ms vector Hfin EmptyString negInfinity
              negInfinity_ordered)
    as [[_ Hno] | (i & m & Hi & Hr & _ & Hmax & Hfirst)].
  - destruct ms as [|model rest]; [done|].
    assert (Hin : model ∈ model :: rest) by left.
    pose proof (isFinite_gt_negInfinity _ (Hfin model Hin)) as F.
    rewrite (Hno model Hin) in F. discriminate.
  - exists i, m. done.
Qed.

End DecisionFacts.

(* ===================================================================== *)
(** ** Feature extraction *)
(* ===================================================================== *)

Module ExtractionFacts.
Import JsNumber Exn MlSvm Page.

Section MapE.
Context {A B : Type} (f : A -> result B).

Lemma mapE_Ok_iff (l : list A) (ys : list B) :
  mapE f l = Ok ys <-> Forall2 (fun x y => f x = Ok y) l ys.
Proof.
  revert ys. induction l as [|x l IH]; intros ys; simpl.
  - split.
    + intros [= <-]. constructor.
    + intros H. inversion H. reflexivity.
  - split.
    + destruct (f x) as [y|e] eqn:Ex; [|discriminate].
      destruct (mapE f l) as [zs|e]; [|discriminate].
      intros [= <-]. constructor; [done|]. apply IH. reflexivity.
    + intros H. inversion H as [|? y ? zs Hx Hl]; subst.
      rewrite Hx. apply IH in Hl. rewrite Hl. reflexivity.
Qed.

Lemma mapE_Throw_inv (l : list A) (e : thrown) :
  mapE f l = Throw e ->
  exists pre x post,
    l = pre ++ x :: post /\
    Forall (fun z => exists y, f z = Ok y) pre /\
    f x = Throw e.
Proof.
  induction l as [|x l IH]; simpl; [discriminate|].
  destruct (f x) as [y|e'] eqn:Ex.
  - destruct (mapE f l) as [zs|e'']; [discriminate|].
    intros [= ->]. destruct (IH eq_refl) as (pre & x' & post & -> & Hpre & Hx').
    exists (x :: pre), x', post. split; [done|]. split; [|done].
    constructor; eauto.
  - intros [= ->]. exists [], x, l. split; [done|]. split; [constructor|done].
Qed.

Lemma mapE_total (l : list A) :
  Forall (fun x => exists y, f x = Ok y) l -> exists ys, mapE f l = Ok ys.
Proof.
  induction 1 as [|x l [y Hy] _ [ys IH]]; simpl.
  - eauto.
  - rewrite Hy, IH. eauto.
Qed.

End MapE.

Lemma isFinite_parseFeatureValue (value : option string) :
  Number_isFinite (parseFeatureValue value) = Number_isFinite (Number value).
Proof.
  unfold parseFeatureValue.
  destruct (Number_isFinite (Number value)) eqn:E; [exact E|reflexivity].
Qed.

Lemma featureCell_Ok_iff (row : ParsedRow) (column : string) (x : number) :
  featureCell row column = Ok x <->
  Number_isFinite (Number (row !! column)) = true /\ x = Number (row !! column).
Proof.
  unfold featureCell. rewrite isFinite_parseFeatureValue.
  unfold parseFeatureValue.
  destruct (Number_isFinite (Number (row !! column))) eqn:E.
  - split; [intros [= <-]; done | intros [_ ->]; done].
  - split; [discriminate | intros [? _]; discriminate].
Qed.

Lemma featureCell_Throw_iff (row : ParsedRow) (column : string) (e : thrown) :
  featureCell row column = Throw e <->
  Number_isFinite (Number (row !! column)) = false /\
  e = ErrorObj (nonNumericMessage column).
Proof.
  unfold featureCell. rewrite isFinite_parseFeatureValue.
  destruct (Number_isFinite (Number (row !! column))) eqn:E.
  - split; [discriminate | intros [? _]; discriminate].
  - split; [intros [= <-]; done | intros [_ ->]; done].
Qed.

(** The rows loop returns exactly when every row maps to a vector, and then
    appends the vectors and the label texts in row order. *)
Lemma extractRows_Ok_iff (fc : list string) (lc : string)
    (rows : list ParsedRow) (F F' : list (list number)) (L L' : list string) :
  extractRows fc lc rows F L = Ok (F', L') <->
  exists fs,
    Forall2 (fun row v => mapE (featureCell row) fc = Ok v) rows fs /\
    F' = F ++ fs /\
    L' = L ++ map (fun row => labelText row lc) rows.
Proof.
  revert F L. induction rows as [|row rows IH]; intros F L; simpl.
  - split.
    + intros [= <- <-]. exists []. rewrite !app_nil_r. split; [constructor|done].
    + intros (fs & H & -> & ->). inversion H. rewrite !app_nil_r. done.
  - destruct (mapE (featureCell row) fc) as [v|e] eqn:Ev.
    + rewrite IH. split.
      * intros (fs & H & -> & ->). exists (v :: fs).
        rewrite <- !app_assoc. split; [constructor; done|done].
      * intros (fs & H & -> & ->).
        inversion H as [|? v' ? fs' Hv Hfs]; subst.
        assert (v' = v) as -> by congruence.
        exists fs'. rewrite <- !app_assoc. done.
    + split; [discriminate|].
      intros (fs & H & _). inversion H; congruence.
Qed.

Lemma extractRows_Throw_inv (fc : list string) (lc : string)
    (rows : list ParsedRow) (F : list (list number)) (L : list string)
    (e : thrown) :
  extractRows fc lc rows F L = Throw e ->
  exists pre row post,
    rows = pre ++ row :: post /\
    Forall (fun r => exists v, mapE (featureCell r) fc = Ok v) pre /\
    mapE (featureCell row) fc = Throw e.
Proof.
  revert F L. induction rows as [|row rows IH]; intros F L; simpl;
    [discriminate|].
  destruct (mapE (featureCell row) fc) as [v|e'] eqn:Ev.
  - intros H. destruct (IH _ _ H) as (pre & r & post & -> & Hpre & Hr).
    exists (row :: pre), r, post. split; [done|]. split; [|done].
    constructor; eauto.
  - intros [= ->]. exists [], row, rows. split; [done|].
    split; [constructor|done].
Qed.

(** The guard of [computeFeaturesAndLabels]. *)
Lemma guard_passes (st : State) :
  parsedRows st <> [] -> featureColumns st <> [] ->
  labelColumn st <> EmptyString ->
  computeFeaturesAndLabels st =
  extractRows (featureColumns st) (labelColumn st) (parsedRows st) [] [].
Proof.
  intros Hr Hf Hl. unfold computeFeaturesAndLabels.
  destruct (parsedRows st); [done|].
  destruct (featureColumns st); [done|].
  destruct (String.eqb_spec (labelColumn st) EmptyString); done.
Qed.

Lemma guard_fails (st : State) :
  parsedRows st = [] \/ featureColumns st = [] \/
  labelColumn st = EmptyString ->
  computeFeaturesAndLabels st = Throw configurationMissing.
Proof.
  unfold computeFeaturesAndLabels. intros [-> | [-> | ->]]; simpl.
  - reflexivity.
  - rewrite orb_true_r. reflexivity.
  - rewrite orb_true_r. reflexivity.
Qed.

(** A successful extraction passed the guard. *)
Lemma computeFeaturesAndLabels_Ok_guard (st : State)
    (features : list (list number)) (labels : list string) :
  computeFeaturesAndLabels st = Ok (features, labels) ->
  parsedRows st <> [] /\ featureColumns st <> [] /\
  labelColumn st <> EmptyString.
Proof.
  intros H.
  repeat split; intros E;
    rewrite guard_fails in H by (rewrite E; auto); discriminate.
Qed.

(** What a successful extraction returns. *)
Lemma computeFeaturesAndLabels_Ok_inv (st : State)
    (features : list (list number)) (labels : list string) :
  computeFeaturesAndLabels st = Ok (features, labels) ->
  Forall2 (fun row v =>
             Forall2 (fun column x => featureCell row column = Ok x)
                     (featureColumns st) v)
          (parsedRows st) features /\
  labels = map (fun row => labelText row (labelColumn st)) (parsedRows st).
Proof.
  intros H.
  destruct (computeFeaturesAndLabels_Ok_guard _ _ _ H) as (Hr & Hf & Hl).
  rewrite guard_passes in H by done.
  apply extractRows_Ok_iff in H as (fs & Hfs & -> & ->). simpl.
  split; [|done].
  eapply Forall2_impl; [exact Hfs|].
  intros row v Hv. apply mapE_Ok_iff. exact Hv.
Qed.

Lemma computeFeaturesAndLabels_shape (st : State)
    (features : list (list number)) (labels : list string) :
  computeFeaturesAndLabels st = Ok (features, labels) ->
  features <> [] /\
  length labels = length features /\
  Forall (fun v => length v = length (featureColumns st)) features.
Proof.
  intros H.
  destruct (computeFeaturesAndLabels_Ok_guard _ _ _ H) as (Hr & Hf & Hl).
  destruct (computeFeaturesAndLabels_Ok_inv _ _ _ H) as [HF ->].
  split; [|split].
  - intros ->. inversion HF as [E|]. congruence.
  - rewrite length_map. eapply Forall2_length; eassumption.
  - clear -HF. induction HF as [|row v rows fs Hv _ IH]; constructor; [|done].
    symmetry. eapply Forall2_length; eassumption.
Qed.

End ExtractionFacts.

(* ===================================================================== *)
(** ** One-vs-rest training *)
(* ===================================================================== *)

Module TrainingFacts.
Import JsNumber Exn MlSvm Page ExtractionFacts.

(** *** The distinct labels *)

Lemma Set_add_fold (l s : list string) :
  NoDup s ->
  exists t,
    foldl Set_add s l = s ++ t /\
    NoDup t /\
    (forall x, x ∈ t <-> (x ∉ s) /\ x ∈ l) /\
    (forall i j a b, i < j -> t !! i = Some a -> t !! j = Some b ->
       exists k, l !! k = Some a /\
                 forall k', k' <= k -> l !! k' <> Some b).
Proof.
  revert s. induction l as [|x l IH]; intros s Hs; simpl.
  - exists []. rewrite app_nil_r. split; [done|]. split; [constructor|].
    split.
    + intros y. split; [intros H; inversion H|intros [_ H]; inversion H].
    + intros i j a b _ H. discriminate.
  - unfold Set_add at 2. case_bool_decide as Hx.
    + destruct (IH s Hs) as (t & Ht & Hnd & Hin & Hord).
      exists t. split; [done|]. split; [done|]. split.
      * intros y. rewrite Hin, elem_of_cons. split; [tauto|].
        intros [Hy [-> | H]]; [done|tauto].
      * intros i j a b Hij Ha Hb.
        destruct (Hord i j a b Hij Ha Hb) as (k & Hk & Hbefore).
        exists (S k). split; [done|].
        intros [|k'] Hle; simpl.
        -- intros [= ->].
           apply list_elem_of_lookup_2, Hin in Hb. tauto.
        -- apply Hbefore. lia.
    + assert (Hs' : NoDup (s ++ [x])).
      { apply NoDup_app. split; [done|]. split; [|apply NoDup_singleton].
        intros y Hy ->%list_elem_of_singleton. done. }
      destruct (IH (s ++ [x]) Hs') as (t & Ht & Hnd & Hin & Hord).
      exists (x :: t). rewrite Ht, <- app_assoc. split; [done|].
      assert (Hnew : forall y, y ∈ t -> y <> x /\ (y ∉ s) /\ y ∈ l).
      { intros y Hy. apply Hin in Hy as [Hy ?].
        rewrite elem_of_app, list_elem_of_singleton in Hy. tauto. }
      split; [|split].
      * constructor; [|done]. intros H. apply Hnew in H. tauto.
      * intros y. rewrite !elem_of_cons, Hin, elem_of_app,
          list_elem_of_singleton.
        destruct (decide (y = x)) as [->|]; tauto.
      * intros [|i] [|j] a b Hij Ha Hb; simpl in *; try lia.
        -- injection Ha as <-. exists 0. split; [done|].
           intros k' Hle. assert (k' = 0) as -> by lia. simpl.
           intros [= ->]. apply list_elem_of_lookup_2, Hnew in Hb. tauto.
        -- destruct (Hord i j a b ltac:(lia) Ha Hb) as (k & Hk & Hbefore).
           exists (S k). split; [done|].
           intros [|k'] Hle; simpl.
           ++ intros [= ->]. apply list_elem_of_lookup_2, Hnew in Hb. tauto.
           ++ apply Hbefore. lia.
Qed.

(** [Array.from(new Set(labels))]: no duplicates, the same elements, and
    in the order of first occurrence. *)
Lemma Set_from_spec (labels : list string) :
  NoDup (Set_from labels) /\
  (forall x, x ∈ Set_from labels <-> x ∈ labels) /\
  (forall i j a b, i < j ->
     Set_from labels !! i = Some a -> Set_from labels !! j = Some b ->
     exists k, labels !! k = Some a /\
               forall k', k' <= k -> labels !! k' <> Some b).
Proof.
  unfold Set_from.
  destruct (Set_add_fold labels [] NoDup_nil_2)
    as (t & -> & Hnd & Hin & Hord).
  simpl. split; [done|]. split; [|done].
  intros x. rewrite Hin. split; [tauto|].
  intros H. split; [apply not_elem_of_nil|done].
Qed.

Lemma Set_from_length (labels : list string) :
  length (Set_from labels) = size (list_to_set labels : gset string).
Proof.
  destruct (Set_from_spec labels) as (Hnd & Hin & _).
  rewrite <- (size_list_to_set (C := gset string) _ Hnd).
  f_equal. apply set_eq. intros x.
  rewrite !elem_of_list_to_set. apply Hin.
Qed.

(** *** The training loop *)

Section WithTrainer.
Variable train : Trainer.

Lemma trainLoop_Ok_iff (options : SVMOptions) (features : list (list number))
    (labels uniqueLabels : list string) (acc ms : list TrainedModel) :
  trainLoop train options features labels uniqueLabels acc = Ok ms <->
  exists new,
    ms = acc ++ new /\
    Forall2 (fun target m =>
               label m = target /\
               train options features (binaryLabels labels target)
               = Ok (svm m))
            uniqueLabels new.
Proof.
  revert acc. induction uniqueLabels as [|target rest IH]; intros acc; simpl.
  - split.
    + intros [= <-]. exists []. rewrite app_nil_r. split; [done|constructor].
    + intros (new & -> & H). inversion H. rewrite app_nil_r. done.
  - destruct (train options features (binaryLabels labels target))
      as [h|e] eqn:Eh.
    + rewrite IH. split.
      * intros (new & -> & H).
        exists ({| label := target; svm := h |} :: new).
        rewrite <- app_assoc. split; [done|]. constructor; done.
      * intros (new & -> & H).
        inversion H as [|? m ? new' [Hl Hm] Hrest]; subst.
        exists new'. rewrite <- app_assoc. split; [|done].
        destruct m as [l s]; simpl in *. congruence.
    + split; [discriminate|].
      intros (new & _ & H). inversion H as [|? m ? ? [_ Hm]]. congruence.
Qed.

Lemma trainLoop_total (options : SVMOptions) (features : list (list number))
    (labels uniqueLabels : list string) (acc : list TrainedModel) :
  (forall target, target ∈ uniqueLabels ->
     exists h, train options features (binaryLabels labels target) = Ok h) ->
  exists ms,
    trainLoop train options features labels uniqueLabels acc = Ok ms.
Proof.
  revert acc. induction uniqueLabels as [|target rest IH]; intros acc H; simpl.
  - eauto.
  - destruct (H target) as [h ->]; [left|].
    apply IH. intros t Ht. apply H. right. exact Ht.
Qed.

(** A failing step ends the loop with its exception, whatever was pushed
    before. *)
Lemma trainLoop_Throw_inv (options : SVMOptions)
    (features : list (list number)) (labels uniqueLabels : list string)
    (acc : list TrainedModel) (e : thrown) :
  trainLoop train options features labels uniqueLabels acc = Throw e ->
  exists target, target ∈ uniqueLabels /\
    train options features (binaryLabels labels target) = Throw e.
Proof.
  revert acc. induction uniqueLabels as [|target rest IH]; intros acc; simpl;
    [discriminate|].
  destruct (train options features (binaryLabels labels target))
    as [h|e'] eqn:Eh.
  - intros H. destruct (IH _ H) as (t & Ht & Et).
    exists t. split; [right; done|done].
  - intros [= ->]. exists target. split; [left|done].
Qed.

End WithTrainer.

(** *** The synchronous part of [trainModel] *)

Lemma prepareTraining_few_labels (st : State) (features : list (list number))
    (labels : list string) :
  computeFeaturesAndLabels st = Ok (features, labels) ->
  size (list_to_set labels : gset string) < 2 ->
  prepareTraining st =
  Throw (ErrorObj "At least two unique labels are required.").
Proof.
  intros H Hsize. unfold prepareTraining. rewrite H.
  destruct (computeFeaturesAndLabels_shape _ _ _ H) as (Hne & _ & _).
  destruct features as [|v fs]; [done|]. simpl.
  rewrite Set_from_length.
  destruct (Nat.ltb_spec (size (list_to_set labels : gset string)) 2);
    [done|lia].
Qed.

Lemma prepareTraining_enough_labels (st : State)
    (features : list (list number)) (labels : list string) :
  computeFeaturesAndLabels st = Ok (features, labels) ->
  2 <= size (list_to_set labels : gset string) ->
  prepareTraining st =
  Ok {| planFeatures := features;
        planLabels := labels;
        planUniqueLabels := Set_from labels;
        planOptions := svmOptions st (length (featureColumns st)) |}.
Proof.
  intros H Hsize. unfold prepareTraining. rewrite H.
  destruct (computeFeaturesAndLabels_shape _ _ _ H) as (Hne & _ & Hdim).
  destruct (computeFeaturesAndLabels_Ok_guard _ _ _ H) as (_ & Hf & _).
  destruct features as [|v fs]; [done|]. simpl.
  rewrite Set_from_length.
  destruct (Nat.ltb_spec (size (list_to_set labels : gset string)) 2);
    [lia|].
  inversion Hdim as [|? ? Hv _]; subst. rewrite Hv.
  destruct (featureColumns st); [done|]. reflexivity.
Qed.

End TrainingFacts.

(* ===================================================================== *)
(** ** Kernel options *)
(* ===================================================================== *)

Module KernelClaims.
Import JsNumber Exn MlSvm Page Examples.

(** What the gamma field's handler stores. *)
Lemma handleGammaChange_gamma (raw : string) (st : State) :
  gamma (handleGammaChange raw st) =
  if Nat.eqb (String.length raw) 0 then None
  else if Number_isFinite (Number (Some raw)) && gt (Number (Some raw)) 0%float
       then Some (Number (Some raw)) else None.
Proof.
  unfold handleGammaChange.
  destruct (Nat.eqb (String.length raw) 0); reflexivity.
Qed.

(** C1, as stated, fails: called with gamma = -1 and dimension 4,
    [resolveKernelOptions] does not return what it returns for gamma = null
    (sigma is NaN instead of the square root of 2). *)
Lemma resolveKernelOptions_negative_gamma_not_default :
  resolveKernelOptions RBF (Some (-1)%float) 4%float
  <> resolveKernelOptions RBF None 4%float.
Proof.
  intros H.
  apply (f_equal (fun o => match o with
                           | Some (RbfKernelOptions s) => Number_isFinite s
                           | _ => false
                           end)) in H.
  vm_compute in H. discriminate.
Qed.

(** C1, amended: for every dimension, when the text typed in the gamma
    field parses to a number that is not both finite and positive, the
    field's handler stores null, and [resolveKernelOptions] for the Rbf kernel
    on the stored gamma returns what it returns for gamma = null, namely sigma
    computed from the default gamma 1 / max(1, D). *)
Theorem rejected_gamma_input_resolves_as_null
    (raw : string) (st : State) (dimension : number) :
  Number_isFinite (Number (Some raw)) && gt (Number (Some raw)) 0%float
  = false ->
  gamma (handleGammaChange raw st) = None /\
  resolveKernelOptions RBF (gamma (handleGammaChange raw st)) dimension
  = resolveKernelOptions RBF None dimension /\
  resolveKernelOptions RBF None dimension
  = Some (RbfKernelOptions
            (Math_sqrt (1 / (2 * (1 / Math_max 1 dimension)))%float)).
Proof.
  intros H.
  assert (E : gamma (handleGammaChange raw st) = None).
  { rewrite handleGammaChange_gamma, H.
    destruct (Nat.eqb (String.length raw) 0); reflexivity. }
  rewrite E. repeat split.
Qed.

Lemma rejected_gamma_input_resolves_as_null_witness :
  gamma (handleGammaChange "-1" xyState) = None /\
  resolveKernelOptions RBF (gamma (handleGammaChange "-1" xyState)) 4%float
  = resolveKernelOptions RBF None 4%float /\
  resolveKernelOptions RBF None 4%float
  = Some (RbfKernelOptions
            (Math_sqrt (1 / (2 * (1 / Math_max 1 4)))%float)).
Proof.
  apply (rejected_gamma_input_resolves_as_null "-1" xyState 4%float).
  vm_compute. reflexivity.
Defined.

(** C7, as stated, fails: with the supplied gamma 0, which is not
    positive, [resolveKernelOptions] does not use 1 / max(1, D) (sigma is
    Infinity). *)
Lemma resolveKernelOptions_zero_gamma_not_default :
  resolveKernelOptions RBF (Some 0%float) 4%float
  <> Some (RbfKernelOptions
             (Math_sqrt (1 / (2 * (1 / Math_max 1 4)))%float)).
Proof.
  intros H.
  apply (f_equal (fun o => match o with
                           | Some (RbfKernelOptions s) => Number_isFinite s
                           | _ => false
                           end)) in H.
  vm_compute in H. discriminate.
Qed.

(** C7, amended: for the Rbf kernel [resolveKernelOptions] takes as
    effective gamma the gamma it is given whenever that is not null, and
    1 / max(1, D) otherwise, and returns sigma = sqrt(1 / (2 * effective
    gamma)); the gamma it is given is the state cell written by the gamma
    field's handler, which holds the typed number only when that is finite and
    positive and null otherwise; and with gamma = null and dimension 4, sigma
    is the square root of 2. *)
Theorem rbf_sigma_from_effective_gamma
    (raw : string) (st : State) (g : option number) (dimension : number) :
  resolveKernelOptions RBF g dimension
  = Some (RbfKernelOptions
            (Math_sqrt (1 / (2 * match g with
                                 | Some x => x
                                 | None => 1 / Math_max 1 dimension
                                 end))%float)) /\
  (forall x, gamma (handleGammaChange raw st) = Some x ->
     x = Number (Some raw) /\ Number_isFinite x = true /\
     gt x 0%float = true) /\
  resolveKernelOptions RBF None 4%float
  = Some (RbfKernelOptions (Math_sqrt 2%float)).
Proof.
  split; [destruct g; reflexivity|]. split; [|vm_compute; reflexivity].
  intros x. rewrite handleGammaChange_gamma.
  destruct (Nat.eqb (String.length raw) 0); [discriminate|].
  destruct (Number_isFinite (Number (Some raw))) eqn:Hfin; [|discriminate].
  destruct (gt (Number (Some raw)) 0%float) eqn:Hpos; [|discriminate].
  simpl. intros [= <-]. done.
Qed.

End KernelClaims.

(* ===================================================================== *)
(** ** Prediction *)
(* ===================================================================== *)

Module DecisionClaims.
Import JsNumber Exn MlSvm Page Examples JsNumberFacts DecisionFacts.

(** C2: on a committed model that is not empty, with the selected feature
    columns' inputs parsed to the query vector, and the class code being +1 or
    -1 wherever it is used, [handlePredict] scores each (label, classifier)
    pair by its margin when that is finite and by its class code otherwise,
    and shows the label of the pair whose score no pair exceeds and every
    earlier pair is strictly below: the earliest pair among those of maximal
    score. *)
Theorem predict_earliest_greatest_score
    (st : State) (ms : list TrainedModel) (vector : list number) :
  models st = Some ms ->
  ms <> [] ->
  featureColumns st <> [] ->
  mapE (predictionCell st) (featureColumns st) = Ok vector ->
  (forall m, m ∈ ms ->
     Number_isFinite (marginOne (svm m) vector) = false ->
     predictOne (svm m) vector = 1%float \/
     predictOne (svm m) vector = (-1)%float) ->
  exists i m,
    ms !! i = Some m /\
    prediction (handlePredict st) = label m /\
    (forall m', m' ∈ ms ->
       modelScore m' vector =
       if Number_isFinite (marginOne (svm m') vector)
       then marginOne (svm m') vector
       else predictOne (svm m') vector) /\
    (forall j m', ms !! j = Some m' ->
       gt (modelScore m' vector) (modelScore m vector) = false) /\
    (forall j m', j < i -> ms !! j = Some m' ->
       gt (modelScore m vector) (modelScore m' vector) = true).
Proof.
  intros Hms Hne Hfc Hvec Hcode.
  destruct (selectBestLabel_first_greatest ms vector Hne)
    as (i & m & Hi & Hr & Hmax & Hfirst).
  { intros m Hm. apply modelScore_finite, Hcode, Hm. }
  exists i, m. split; [done|]. split; [|split; [reflexivity|done]].
  unfold handlePredict. rewrite Hms, Hvec.
  destruct ms; [done|]. destruct (featureColumns st); [done|].
  simpl. exact Hr.
Qed.

Lemma predict_earliest_greatest_score_witness :
  exists i m,
    tiedModels !! i = Some m /\
    prediction (handlePredict tiedState) = label m /\
    (forall m', m' ∈ tiedModels ->
       modelScore m' [5%float; 0%float] =
       if Number_isFinite (marginOne (svm m') [5%float; 0%float])
       then marginOne (svm m') [5%float; 0%float]
       else predictOne (svm m') [5%float; 0%float]) /\
    (forall j m', tiedModels !! j = Some m' ->
       gt (modelScore m' [5%float; 0%float]) (modelScore m [5%float; 0%float])
       = false) /\
    (forall j m', j < i -> tiedModels !! j = Some m' ->
       gt (modelScore m [5%float; 0%float]) (modelScore m' [5%float; 0%float])
       = true).
Proof.
  apply (predict_earliest_greatest_score tiedState tiedModels
           [5%float; 0%float]).
  - reflexivity.
  - discriminate.
  - discriminate.
  - vm_compute. reflexivity.
  - intros m Hm _. left.
    unfold tiedModels in Hm.
    repeat (apply elem_of_cons in Hm as [-> | Hm]; [reflexivity|]).
    inversion Hm.
Defined.



End DecisionClaims.

(* ===================================================================== *)
(** ** Extraction failures and blank cells *)
(* ===================================================================== *)

Module ExtractionClaims.
Import JsNumber Exn MlSvm Page Examples ExtractionFacts.

Lemma cell_parses_iff (row : ParsedRow) (column : string) :
  (exists x, featureCell row column = Ok x) <->
  Number_isFinite (Number (row !! column)) = true.
Proof.
  split.
  - intros [x H]. apply featureCell_Ok_iff in H. tauto.
  - intros H. exists (Number (row !! column)).
    apply featureCell_Ok_iff. done.
Qed.

Lemma row_parses_iff (fc : list string) (row : ParsedRow) :
  (exists v, mapE (featureCell row) fc = Ok v) <->
  forall column, column ∈ fc ->
    Number_isFinite (Number (row !! column)) = true.
Proof.
  split.
  - intros [v H] column Hc. apply mapE_Ok_iff in H.
    apply list_elem_of_lookup_1 in Hc as [j Hj].
    destruct (Forall2_lookup_l _ _ _ _ _ H Hj) as (x & _ & Hx).
    apply cell_parses_iff. eauto.
  - intros H. apply mapE_total, Forall_forall.
    intros column Hc. apply cell_parses_iff, H, Hc.
Qed.

(** C4, as stated, fails: no reading of the thrown error gives the index
    of the offending row, since a non-numeric cell in row 0 and one in row 1
    (of the same column) raise the same error. *)
Lemma nonnumeric_error_does_not_name_the_row :
  ~ exists rowIndexOf : thrown -> nat,
      forall (st : State) (i : nat) (row : ParsedRow) (column : string),
        labelColumn st <> EmptyString ->
        parsedRows st !! i = Some row ->
        column ∈ featureColumns st ->
        Number_isFinite (Number (row !! column)) = false ->
        (forall i' row' c, i' < i -> parsedRows st !! i' = Some row' ->
           c ∈ featureColumns st ->
           Number_isFinite (Number (row' !! c)) = true) ->
        exists e, computeFeaturesAndLabels st = Throw e /\ rowIndexOf e = i.
Proof.
  intros [rowIndexOf H].
  destruct (H badRow0State 0
              (row [("x", "1"); ("y", "n/a"); ("class", "A")]) "y")
    as (e0 & He0 & Hi0).
  { discriminate. }
  { reflexivity. }
  { set_solver. }
  { vm_compute. reflexivity. }
  { intros i' row' c Hlt. lia. }
  destruct (H badRow1State 1
              (row [("x", "2"); ("y", "n/a"); ("class", "B")]) "y")
    as (e1 & He1 & Hi1).
  { discriminate. }
  { reflexivity. }
  { set_solver. }
  { vm_compute. reflexivity. }
  { intros [|i'] row' c Hlt Hrow Hc; [|lia].
    injection Hrow as <-.
    apply elem_of_cons in Hc as [-> | Hc]; [vm_compute; reflexivity|].
    apply elem_of_cons in Hc as [-> | Hc]; [vm_compute; reflexivity|].
    inversion Hc. }
  assert (E : computeFeaturesAndLabels badRow0State
              = computeFeaturesAndLabels badRow1State)
    by (vm_compute; reflexivity).
  rewrite He0, He1 in E. injection E as ->. lia.
Qed.

(** C4, amended: when the configuration passes the guard and some row has,
    in a selected feature column, a value that does not parse as a finite
    number, [computeFeaturesAndLabels] throws the error whose message names
    the column of the first such cell, rows taken in order and columns in
    selection order within the row; it returns no matrix, so nothing is
    coerced or dropped.  The error does not carry the row index. *)
Theorem nonnumeric_cell_fails_naming_the_column (st : State) :
  labelColumn st <> EmptyString ->
  (exists row column,
     row ∈ parsedRows st /\ column ∈ featureColumns st /\
     Number_isFinite (Number (row !! column)) = false) ->
  exists pre row post cpre column cpost,
    parsedRows st = pre ++ row :: post /\
    featureColumns st = cpre ++ column :: cpost /\
    (forall r c, r ∈ pre -> c ∈ featureColumns st ->
       Number_isFinite (Number (r !! c)) = true) /\
    (forall c, c ∈ cpre -> Number_isFinite (Number (row !! c)) = true) /\
    Number_isFinite (Number (row !! column)) = false /\
    computeFeaturesAndLabels st
    = Throw (ErrorObj (nonNumericMessage column)).
Proof.
  intros Hl (row0 & column0 & Hrow0 & Hcol0 & Hbad0).
  assert (Hr : parsedRows st <> []) by (intros E; rewrite E in Hrow0; inversion Hrow0).
  assert (Hf : featureColumns st <> []) by (intros E; rewrite E in Hcol0; inversion Hcol0).
  rewrite guard_passes by done.
  destruct (extractRows (featureColumns st) (labelColumn st) (parsedRows st)
              [] []) as [[F L]|e] eqn:E.
  - exfalso. apply extractRows_Ok_iff in E as (fs & Hfs & _).
    apply list_elem_of_lookup_1 in Hrow0 as [i Hi].
    destruct (Forall2_lookup_l _ _ _ _ _ Hfs Hi) as (v & _ & Hv).
    assert (Hok : exists v, mapE (featureCell row0) (featureColumns st) = Ok v)
      by eauto.
    rewrite row_parses_iff in Hok. rewrite (Hok column0 Hcol0) in Hbad0.
    discriminate.
  - destruct (extractRows_Throw_inv _ _ _ _ _ _ E)
      as (pre & row & post & Hrows & Hpre & Hrow).
    destruct (mapE_Throw_inv _ _ _ Hrow)
      as (cpre & column & cpost & Hcols & Hcpre & Hcell).
    apply featureCell_Throw_iff in Hcell as [Hbad ->].
    exists pre, row, post, cpre, column, cpost.
    repeat split; try done.
    + intros r c Hin Hc. rewrite Forall_forall in Hpre.
      exact (proj1 (row_parses_iff _ _) (Hpre r Hin) c Hc).
    + intros c Hc. rewrite Forall_forall in Hcpre.
      apply cell_parses_iff, Hcpre, Hc.
Qed.

Lemma nonnumeric_cell_fails_naming_the_column_witness :
  exists pre row post cpre column cpost,
    parsedRows badRow1State = pre ++ row :: post /\
    featureColumns badRow1State = cpre ++ column :: cpost /\
    (forall r c, r ∈ pre -> c ∈ featureColumns badRow1State ->
       Number_isFinite (Number (r !! c)) = true) /\
    (forall c, c ∈ cpre -> Number_isFinite (Number (row !! c)) = true) /\
    Number_isFinite (Number (row !! column)) = false /\
    computeFeaturesAndLabels badRow1State
    = Throw (ErrorObj (nonNumericMessage column)).
Proof.
  apply (nonnumeric_cell_fails_naming_the_column badRow1State).
  - discriminate.
  - exists (row [("x", "2"); ("y", "n/a"); ("class", "B")]), "y".
    split; [right; left|]. split; [right; left|].
    vm_compute. reflexivity.
Defined.

(** C6, as stated, fails: the thrown errors cannot be sorted into the
    three kinds, since a dataset without rows and a selection without feature
    columns raise the same error. *)
Lemma precondition_failures_are_one_error :
  ~ exists kindOf : thrown -> PreconditionFailure,
      forall st : State,
        (parsedRows st = [] ->
         exists e, computeFeaturesAndLabels st = Throw e /\
                   kindOf e = EmptyDataset) /\
        (parsedRows st <> [] -> featureColumns st = [] ->
         exists e, computeFeaturesAndLabels st = Throw e /\
                   kindOf e = EmptyFeatureSet) /\
        (parsedRows st <> [] -> featureColumns st <> [] ->
         labelColumn st ∉ columns st ->
         exists e, computeFeaturesAndLabels st = Throw e /\
                   kindOf e = MissingLabelColumn).
Proof.
  intros [kindOf H].
  destruct (H noRowsState) as [H1 _].
  destruct (H1 eq_refl) as (e1 & He1 & Hk1).
  destruct (H noFeaturesState) as (_ & H2 & _).
  destruct (H2 ltac:(discriminate) eq_refl) as (e2 & He2 & Hk2).
  vm_compute in He1, He2.
  injection He1 as <-. injection He2 as <-. congruence.
Qed.

(** A label column that the dataset does not have is not an error: the
    label of every row is the text "undefined". *)
Lemma absent_label_column_is_accepted :
  (labelColumn absentLabelState ∉ columns absentLabelState) /\
  computeFeaturesAndLabels absentLabelState = Ok ([[1%float]], ["undefined"]).
Proof.
  split; [|vm_compute; reflexivity].
  intros H. repeat (apply elem_of_cons in H as [H | H]; [discriminate|]).
  inversion H.
Qed.

(** C6, amended: [computeFeaturesAndLabels] throws one and the same error,
    with the message "Dataset, features, or label configuration missing.",
    when the dataset has zero rows, when zero feature columns are selected,
    and when the label column name is empty; the three are not told apart,
    and the label column is not looked up in the dataset's columns. *)
Theorem precondition_failures_throw_configuration_missing (st : State) :
  parsedRows st = [] \/ featureColumns st = [] \/
  labelColumn st = EmptyString ->
  computeFeaturesAndLabels st
  = Throw (ErrorObj "Dataset, features, or label configuration missing.").
Proof. apply guard_fails. Qed.

Lemma precondition_failures_throw_configuration_missing_witness :
  computeFeaturesAndLabels noLabelState
  = Throw (ErrorObj "Dataset, features, or label configuration missing.").
Proof.
  apply (precondition_failures_throw_configuration_missing noLabelState).
  right. right. reflexivity.
Defined.

(** C9: a blank cell in a selected feature column never makes extraction
    fail.  When the configuration passes the guard and every selected cell is
    either the empty string or parses as a finite number, the extraction
    returns, and the matrix holds the number 0 at the place of each blank
    cell: the empty string parses to 0, which is finite. *)
Theorem blank_feature_cell_is_zero (st : State) :
  parsedRows st <> [] ->
  featureColumns st <> [] ->
  labelColumn st <> EmptyString ->
  (forall row column, row ∈ parsedRows st -> column ∈ featureColumns st ->
     row !! column = Some EmptyString \/
     Number_isFinite (Number (row !! column)) = true) ->
  parseFeatureValue (Some EmptyString) = 0%float /\
  Number_isFinite (parseFeatureValue (Some EmptyString)) = true /\
  exists features labels,
    computeFeaturesAndLabels st = Ok (features, labels) /\
    forall i j row column,
      parsedRows st !! i = Some row ->
      featureColumns st !! j = Some column ->
      row !! column = Some EmptyString ->
      exists v, features !! i = Some v /\ v !! j = Some 0%float.
Proof.
  intros Hr Hf Hl Hcells.
  split; [reflexivity|]. split; [reflexivity|].
  assert (Hall : Forall (fun row => exists v,
                   mapE (featureCell row) (featureColumns st) = Ok v)
                 (parsedRows st)).
  { apply Forall_forall. intros row Hrow. apply row_parses_iff.
    intros column Hc. destruct (Hcells row column Hrow Hc) as [-> | H];
      [reflexivity|exact H]. }
  destruct (computeFeaturesAndLabels st) as [[features labels]|e] eqn:E.
  - exists features, labels. split; [reflexivity|].
    destruct (computeFeaturesAndLabels_Ok_inv _ _ _ E) as [HF _].
    intros i j row column Hi Hj Hblank.
    destruct (Forall2_lookup_l _ _ _ _ _ HF Hi) as (v & Hv & Hrowv).
    destruct (Forall2_lookup_l _ _ _ _ _ Hrowv Hj) as (x & Hx & Hcell).
    exists v. split; [done|].
    apply featureCell_Ok_iff in Hcell as [_ ->].
    rewrite Hblank in Hx. exact Hx.
  - exfalso. rewrite guard_passes in E by done.
    destruct (extractRows_Throw_inv _ _ _ _ _ _ E)
      as (pre & row & post & Hrows & _ & Hrow).
    rewrite Forall_forall in Hall.
    destruct (Hall row) as [v Hv]; [rewrite Hrows; set_solver|].
    congruence.
Qed.

Lemma blank_feature_cell_is_zero_witness :
  parseFeatureValue (Some EmptyString) = 0%float /\
  Number_isFinite (parseFeatureValue (Some EmptyString)) = true /\
  exists features labels,
    computeFeaturesAndLabels blankCellState = Ok (features, labels) /\
    forall i j row column,
      parsedRows blankCellState !! i = Some row ->
      featureColumns blankCellState !! j = Some column ->
      row !! column = Some EmptyString ->
      exists v, features !! i = Some v /\ v !! j = Some 0%float.
Proof.
  apply (blank_feature_cell_is_zero blankCellState).
  - discriminate.
  - discriminate.
  - discriminate.
  - intros row column Hrow Hcol.
    unfold blankCellState, loaded in Hrow, Hcol. simpl in Hrow, Hcol.
    apply elem_of_cons in Hcol as [-> | Hcol];
      [|apply elem_of_cons in Hcol as [-> | Hcol]; [|inversion Hcol]];
      (apply elem_of_cons in Hrow as [-> | Hrow];
       [|apply elem_of_cons in Hrow as [-> | Hrow]; [|inversion Hrow]]).
    + right. vm_compute. reflexivity.
    + right. vm_compute. reflexivity.
    + right. vm_compute. reflexivity.
    + left. vm_compute. reflexivity.
Defined.

End ExtractionClaims.

(* ===================================================================== *)
(** ** Training runs *)
(* ===================================================================== *)

Module TrainingClaims.
Import JsNumber Exn MlSvm Page Examples ExtractionFacts TrainingFacts.

Lemma trained_pairs_labels (P : string -> TrainedModel -> Prop)
    (targets : list string) (ms : list TrainedModel) :
  Forall2 (fun target m => label m = target /\ P target m) targets ms ->
  map label ms = targets /\ forall m, m ∈ ms -> P (label m) m.
Proof.
  induction 1 as [|target m targets ms [Hl Hp] _ [IHl IHp]]; simpl.
  - split; [done|]. intros m H. inversion H.
  - split; [congruence|].
    intros m' [-> | Hm]%elem_of_cons; [rewrite Hl; done|auto].
Qed.

(** C3, as stated, fails: with two distinct labels and all-numeric features
    [trainModel] need not return a model at all, since a binary training step
    may throw; on the dataset of [xyState] and a library whose [train] throws
    for the second label no model is committed. *)
Lemma two_labels_do_not_ensure_a_model :
  ~ (forall (train : Trainer) (st : State)
            (features : list (list number)) (labels : list string),
       computeFeaturesAndLabels st = Ok (features, labels) ->
       2 <= size (list_to_set labels : gset string) ->
       exists st' ms,
         trainModel train st = Fulfilled st' /\
         models st' = Some ms /\
         length ms = size (list_to_set labels : gset string)).
Proof.
  intros H.
  destruct (H rejectingTrainer xyState
              [[2; 1]; [-3; 0.5]; [1.5; -1]; [-1; 2]]%float
              ["A"; "B"; "A"; "B"])
    as (st' & ms & Hrun & _).
  - vm_compute. reflexivity.
  - vm_compute. lia.
  - vm_compute in Hrun. discriminate Hrun.
Qed.

(** C3, amended: on a feature matrix and label vector that the extraction
    returned, [trainModel] ends in the failure "At least two unique labels are
    required." when the label vector has fewer than two distinct labels;
    otherwise, every binary training step returning, it commits a model with
    exactly one (label, classifier) pair per distinct label, the labels in
    the order of their first occurrence in the label vector, and each
    classifier the result of training on the vector that has +1 where the
    label vector has that label and -1 elsewhere. *)
Theorem trainModel_one_pair_per_distinct_label
    (train : Trainer) (st : State)
    (features : list (list number)) (labels : list string) :
  computeFeaturesAndLabels st = Ok (features, labels) ->
  (size (list_to_set labels : gset string) < 2 ->
   exists st',
     trainModel train st = Fulfilled st' /\
     status st' = "Training failed" /\
     trainingError st' = Some "At least two unique labels are required." /\
     models st' = None)
  /\
  (2 <= size (list_to_set labels : gset string) ->
   (forall target, target ∈ labels ->
      exists h, train (svmOptions st (length (featureColumns st))) features
                      (binaryLabels labels target) = Ok h) ->
   exists st' ms,
     trainModel train st = Fulfilled st' /\
     models st' = Some ms /\
     length ms = size (list_to_set labels : gset string) /\
     NoDup (map label ms) /\
     (forall x, x ∈ map label ms <-> x ∈ labels) /\
     (forall i j a b, i < j ->
        map label ms !! i = Some a -> map label ms !! j = Some b ->
        exists k, labels !! k = Some a /\
                  forall k', k' <= k -> labels !! k' <> Some b) /\
     (forall m, m ∈ ms ->
        train (svmOptions st (length (featureColumns st))) features
              (map (fun value => if bool_decide (value = label m)
                                 then 1%float else (-1)%float) labels)
        = Ok (svm m))).
Proof.
  intros Hext. split.
  - intros Hfew. unfold trainModel.
    rewrite (prepareTraining_few_labels _ _ _ Hext Hfew).
    eexists. split; [reflexivity|]. done.
  - intros Hmany Htrain. unfold trainModel.
    rewrite (prepareTraining_enough_labels _ _ _ Hext Hmany). simpl.
    destruct (Set_from_spec labels) as (Hnd & Hin & Hord).
    destruct (trainLoop_total train
                (svmOptions st (length (featureColumns st)))
                features labels (Set_from labels) [])
      as [ms Hms].
    { intros target Ht. apply Htrain, Hin, Ht. }
    rewrite Hms.
    apply trainLoop_Ok_iff in Hms as (new & -> & Hnew). simpl.
    apply trained_pairs_labels in Hnew as [Hlabels Hsvm].
    eexists. exists new. split; [reflexivity|]. split; [reflexivity|].
    rewrite <- Set_from_length, <- Hlabels, length_map.
    split; [done|]. rewrite Hlabels. done.
Qed.

Lemma trainModel_one_pair_per_distinct_label_witness :
  exists st' ms,
    trainModel signedSumTrainer xyState = Fulfilled st' /\
    models st' = Some ms /\
    length ms = size (list_to_set ["A"; "B"; "A"; "B"] : gset string) /\
    NoDup (map label ms) /\
    (forall x, x ∈ map label ms <-> x ∈ ["A"; "B"; "A"; "B"]) /\
    (forall i j a b, i < j ->
       map label ms !! i = Some a -> map label ms !! j = Some b ->
       exists k, ["A"; "B"; "A"; "B"] !! k = Some a /\
                 forall k', k' <= k -> ["A"; "B"; "A"; "B"] !! k' <> Some b) /\
    (forall m, m ∈ ms ->
       signedSumTrainer
         (svmOptions xyState (length (featureColumns xyState)))
         [[2; 1]; [-3; 0.5]; [1.5; -1]; [-1; 2]]%float
         (map (fun value => if bool_decide (value = label m)
                            then 1%float else (-1)%float)
              ["A"; "B"; "A"; "B"])
       = Ok (svm m)).
Proof.
  apply (trainModel_one_pair_per_distinct_label signedSumTrainer xyState
           [[2; 1]; [-3; 0.5]; [1.5; -1]; [-1; 2]]%float
           ["A"; "B"; "A"; "B"]).
  - vm_compute. reflexivity.
  - vm_compute. lia.
  - intros target _. eexists. reflexivity.
Defined.

(** A throwing step, in general: the call never settles and only the
    status cell has changed. *)
Lemma trainModel_step_failure (train : Trainer) (st : State)
    (plan : TrainingPlan) (e : thrown) :
  prepareTraining st = Ok plan ->
  trainLoop train (planOptions plan) (planFeatures plan) (planLabels plan)
    (planUniqueLabels plan) [] = Throw e ->
  trainModel train st = NeverSettles (setStatus "Training…" st) e.
Proof. intros Hp Ht. unfold trainModel. rewrite Hp, Ht. reflexivity. Qed.

(** C5, on the code: when a binary training step throws, the exception
    leaves the timer callback, not the [try] block: the awaited promise is
    never resolved, so [trainModel] never settles, the [catch] clause does
    not run and the status stays "Training…" with the committed model and
    error cells untouched; a failure detected before the [await] is caught
    and reported as "Training failed". *)
Theorem training_step_failure_is_never_reported :
  trainModel rejectingTrainer xyState
  = NeverSettles (setStatus "Training…" xyState)
                 (ErrorObj "training did not converge")
  /\
  trainModel rejectingTrainer (trained tiedModels [])
  = NeverSettles (setStatus "Training…" (trained tiedModels []))
                 (ErrorObj "training did not converge")
  /\
  trainModel rejectingTrainer oneClassState
  = Fulfilled (catchTraining
                 (ErrorObj "At least two unique labels are required.")
                 oneClassState).
Proof. repeat split; vm_compute; reflexivity. Qed.

End TrainingClaims.

(* ===================================================================== *)
(** ** The form handlers and the states of a session *)
(* ===================================================================== *)

Module HandlerFacts.
Import JsNumber Exn MlSvm Page Handlers ExtractionFacts TrainingFacts.

Lemma dom_blankInputs (features : list string) :
  dom (blankInputs features) = list_to_set features.
Proof.
  unfold blankInputs. rewrite dom_list_to_map_L. f_equal.
  induction features as [|c features IH]; [done|].
  simpl. f_equal. exact IH.
Qed.

Lemma blankInputs_lookup (features : list string) (column : string) :
  column ∈ features -> blankInputs features !! column = Some EmptyString.
Proof.
  intros H. unfold blankInputs.
  destruct (list_to_map (M := gmap string string)
              (map (fun c => (c, EmptyString)) features) !! column)
    as [v|] eqn:E.
  - apply elem_of_list_to_map_2 in E.
    apply list_elem_of_fmap in E as (c & [= -> ->] & _). done.
  - apply not_elem_of_list_to_map in E. exfalso. apply E.
    apply list_elem_of_fmap. exists (column, EmptyString). split; [done|].
    apply list_elem_of_fmap. eauto.
Qed.

Lemma someValueNotEmpty_true (row : ParsedRow) :
  someValueNotEmpty row = true <->
  exists column value, row !! column = Some value /\ value <> EmptyString.
Proof.
  unfold someValueNotEmpty. rewrite existsb_exists. split.
  - intros ([k v] & Hin & Hv). exists k, v. simpl in Hv.
    apply list_elem_of_In, elem_of_map_to_list in Hin. split; [done|].
    intros ->. discriminate.
  - intros (k & v & Hk & Hv). exists (k, v). split.
    + apply list_elem_of_In, elem_of_map_to_list. done.
    + simpl. destruct (String.eqb_spec v EmptyString); done.
Qed.

(** A state that agrees with a well-formed one on the configuration cells
    and whose model cell is acceptable is well-formed. *)
Lemma wellFormed_same_configuration (st st' : State) :
  wellFormed st ->
  parsedRows st' = parsedRows st -> columns st' = columns st ->
  labelColumn st' = labelColumn st -> featureColumns st' = featureColumns st ->
  predictionInput st' = predictionInput st ->
  gamma st' = gamma st -> cost st' = cost st ->
  (forall ms, models st' = Some ms -> 2 <= length ms /\ NoDup (map label ms)) ->
  wellFormed st'.
Proof.
  intros [Hdom Hlf Hfc Hlc Hrc Hrb Hga Hcost _] Hr Hc Hl Hf Hp Hg Hco Hm.
  constructor; rewrite ?Hr, ?Hc, ?Hl, ?Hf, ?Hp, ?Hg, ?Hco; done.
Qed.

Lemma wellFormed_initial : wellFormed initialState.
Proof.
  constructor; simpl; try done.
  all: try apply not_elem_of_nil.
  all: intros x H; inversion H.
Qed.

Lemma wellFormed_handleCSVContent (Papa_parse : Parser) (csv : string)
    (st : State) :
  wellFormed st -> wellFormed (handleCSVContent Papa_parse csv st).
Proof.
  intros Hwf. unfold handleCSVContent.
  destruct (errors (Papa_parse csv)) as [|e es].
  2: { eapply wellFormed_same_configuration; [exact Hwf|done..|apply Hwf]. }
  set (rows := filter _ (data (Papa_parse csv))).
  set (cols := default [] (fields (Papa_parse csv))).
  destruct (Nat.eqb (length rows) 0 || Nat.eqb (length cols) 0) eqn:Hguard.
  { eapply wellFormed_same_configuration; [exact Hwf|done..|apply Hwf]. }
  apply orb_false_iff in Hguard as [Hrows Hcols].
  apply Nat.eqb_neq in Hrows, Hcols.
  assert (exists l, cols !! (length cols - 1) = Some l) as [l Hl].
  { apply lookup_lt_is_Some. lia. }
  rewrite Hl. simpl.
  destruct Hwf as [Hdom Hlf Hfc Hlc Hrc Hrb Hg Hco Hm].
  constructor; simpl; try done.
  - apply dom_blankInputs.
  - rewrite list_elem_of_filter. intros [H _]. done.
  - intros column Hc. apply list_elem_of_filter in Hc as [_ Hc]. done.
  - intros _. eapply list_elem_of_lookup_2. exact Hl.
  - split; intros E; rewrite E in *; simpl in *; lia.
  - intros r Hr. apply list_elem_of_filter in Hr as [Hr _].
    apply someValueNotEmpty_true. exact Hr.
Qed.

Lemma wellFormed_handleFileUpload (Papa_parse : Parser)
    (file : option (option string)) (st : State) :
  wellFormed st -> wellFormed (handleFileUpload Papa_parse file st).
Proof.
  intros Hwf. destruct file as [[csv|]|]; simpl.
  - apply wellFormed_handleCSVContent, Hwf.
  - eapply wellFormed_same_configuration; [exact Hwf|done..|apply Hwf].
  - exact Hwf.
Qed.

Lemma wellFormed_handleLabelChange (nextLabel : string) (st : State) :
  nextLabel ∈ columns st ->
  wellFormed st -> wellFormed (handleLabelChange nextLabel st).
Proof.
  intros Hin [Hdom Hlf Hfc Hlc Hrc Hrb Hg Hco Hm].
  constructor; simpl; try done.
  - apply dom_blankInputs.
  - rewrite list_elem_of_filter. intros [H _]. done.
  - intros column Hc. apply list_elem_of_filter in Hc as [_ Hc]. done.
Qed.

Lemma wellFormed_handleFeatureToggle (column : string) (st : State) :
  column ∈ columns st -> column <> labelColumn st ->
  wellFormed st -> wellFormed (handleFeatureToggle column st).
Proof.
  intros Hin Hne [Hdom Hlf Hfc Hlc Hrc Hrb Hg Hco Hm]. unfold handleFeatureToggle.
  case_bool_decide as Hsel.
  - constructor; simpl; try done.
    + rewrite dom_delete_L, Hdom. apply set_eq. intros x.
      rewrite elem_of_difference, !elem_of_list_to_set, list_elem_of_filter,
        elem_of_singleton. tauto.
    + rewrite list_elem_of_filter. intros [_ H]. done.
    + intros c Hc. apply list_elem_of_filter in Hc as [_ Hc]. auto.
  - constructor; simpl; try done.
    + rewrite dom_insert_L, Hdom. apply set_eq. intros x.
      rewrite elem_of_union, elem_of_singleton, !elem_of_list_to_set,
        elem_of_app, list_elem_of_singleton. tauto.
    + rewrite elem_of_app, list_elem_of_singleton. intros [H | H]; [done|].
      congruence.
    + intros c [Hc | ->%list_elem_of_singleton]%elem_of_app; auto.
Qed.

Lemma wellFormed_handleKernelChange (value : KernelKey) (st : State) :
  wellFormed st -> wellFormed (handleKernelChange value st).
Proof.
  intros Hwf. eapply wellFormed_same_configuration; [exact Hwf|done..].
Qed.

Lemma handleCostChange_positive (raw : string) (st : State) :
  Number_isFinite (cost (handleCostChange raw st)) = true /\
  gt (cost (handleCostChange raw st)) 0%float = true.
Proof.
  change (cost (handleCostChange raw st))
    with (if Number_isFinite (Number (Some raw))
               && gt (Number (Some raw)) 0%float
          then Number (Some raw) else 1%float).
  destruct (Number_isFinite (Number (Some raw))) eqn:Hfin,
           (gt (Number (Some raw)) 0%float) eqn:Hpos;
    cbn [andb]; rewrite ?Hfin, ?Hpos; split; reflexivity.
Qed.

Lemma wellFormed_handleCostChange (raw : string) (st : State) :
  wellFormed st -> wellFormed (handleCostChange raw st).
Proof.
  intros [Hdom Hlf Hfc Hlc Hrc Hrb Hg Hco Hm].
  constructor; try done. apply handleCostChange_positive.
Qed.

Lemma wellFormed_handleGammaChange (raw : string) (st : State) :
  wellFormed st -> wellFormed (handleGammaChange raw st).
Proof.
  intros [Hdom Hlf Hfc Hlc Hrc Hrb Hg Hco Hm].
  assert (Hgamma : forall g, gamma (handleGammaChange raw st) = Some g ->
            Number_isFinite g = true /\ gt g 0%float = true).
  { intros g. unfold handleGammaChange.
    destruct (Nat.eqb (String.length raw) 0); [discriminate|].
    change (gamma _)
      with (if Number_isFinite (Number (Some raw))
                 && gt (Number (Some raw)) 0%float
            then Some (Number (Some raw)) else None).
    destruct (Number_isFinite (Number (Some raw))) eqn:Hfin,
             (gt (Number (Some raw)) 0%float) eqn:Hpos;
      cbn [andb]; try discriminate.
    intros [= <-]. done. }
  unfold handleGammaChange in *.
  destruct (Nat.eqb (String.length raw) 0); constructor; try done.
Qed.

Lemma wellFormed_handlePredictionInputChange (column value : string)
    (st : State) :
  column ∈ featureColumns st ->
  wellFormed st -> wellFormed (handlePredictionInputChange column value st).
Proof.
  intros Hin [Hdom Hlf Hfc Hlc Hrc Hrb Hg Hco Hm].
  constructor; simpl; try done.
  rewrite dom_insert_L, Hdom. apply set_eq. intros x.
  rewrite elem_of_union, elem_of_singleton, !elem_of_list_to_set.
  split; [intros [-> | H]; done | auto].
Qed.

Lemma handlePredict_sets_prediction (st : State) :
  exists text, handlePredict st = setPrediction text st.
Proof.
  unfold handlePredict.
  destruct (models st) as [ms|]; [|eauto].
  destruct (Nat.eqb (length ms) 0 || Nat.eqb (length (featureColumns st)) 0);
    [eauto|].
  destruct (mapE (predictionCell st) (featureColumns st)) as [v|[m|]]; eauto.
Qed.

Lemma wellFormed_handlePredict (st : State) :
  wellFormed st -> wellFormed (handlePredict st).
Proof.
  intros Hwf. destruct (handlePredict_sets_prediction st) as [text ->].
  eapply wellFormed_same_configuration; [exact Hwf|done..|apply Hwf].
Qed.

End HandlerFacts.

(* ===================================================================== *)
(** ** More on extraction *)
(* ===================================================================== *)

Module ExtractionExtras.
Import JsNumber Exn MlSvm Page Examples HandlerExamples.
Import ExtractionFacts ExtractionClaims.

Lemma row_vector (fc : list string) (row : ParsedRow) (v : list number) :
  mapE (featureCell row) fc = Ok v ->
  v = map (fun column => Number (row !! column)) fc /\
  Forall (fun x => Number_isFinite x = true) v.
Proof.
  intros H. apply mapE_Ok_iff in H.
  induction H as [|c x fc v Hc _ [IHv IHf]]; simpl; [done|].
  apply featureCell_Ok_iff in Hc as [Hfin ->].
  split; [congruence|]. constructor; done.
Qed.

(** X1: what a successful extraction returns.  The matrix has one row per
    dataset row, in order, holding the numbers parsed from the selected
    feature columns in selection order; the label vector has the text of the
    label cell of each row and, where the row lacks the column, the text of
    the value the row inherits under that name from [Object.prototype]
    ("[object Object]" for [__proto__]) or, when there is none, "undefined";
    and every entry of the matrix is finite. *)
Theorem extraction_returns_parsed_rows
    (st : State) (features : list (list number)) (labels : list string) :
  computeFeaturesAndLabels st = Ok (features, labels) ->
  features = map (fun row =>
                    map (fun column => Number (row !! column))
                        (featureColumns st))
                 (parsedRows st) /\
  labels = map (fun row =>
                  match row !! labelColumn st with
                  | Some text => text
                  | None =>
                      match Object_prototype (labelColumn st) with
                      | Some value => inheritedText value
                      | None => "undefined"
                      end
                  end)
               (parsedRows st) /\
  (forall v x, v ∈ features -> x ∈ v -> Number_isFinite x = true).
Proof.
  intros H.
  destruct (computeFeaturesAndLabels_Ok_guard _ _ _ H) as (Hr & Hf & Hl).
  rewrite guard_passes in H by done.
  apply extractRows_Ok_iff in H as (fs & Hfs & -> & ->). simpl.
  split; [|split; [reflexivity|]].
  - clear Hr. induction Hfs as [|row v rows fs Hv _ IH]; simpl; [done|].
    apply row_vector in Hv as [Hv _]. rewrite Hv. f_equal. exact IH.
  - intros v x Hv Hx.
    apply list_elem_of_lookup_1 in Hv as [i Hi].
    destruct (Forall2_lookup_r _ _ _ _ _ Hfs Hi) as (row & _ & Hrow).
    apply row_vector in Hrow as [_ Hfin].
    rewrite Forall_forall in Hfin. auto.
Qed.

Lemma extraction_returns_parsed_rows_witness :
  [[1]; [2]]%float
  = map (fun row =>
           map (fun column => Number (row !! column))
               (featureColumns protoLabelState))
        (parsedRows protoLabelState) /\
  ["[object Object]"; "[object Object]"]
  = map (fun row =>
           match row !! labelColumn protoLabelState with
           | Some text => text
           | None =>
               match Object_prototype (labelColumn protoLabelState) with
               | Some value => inheritedText value
               | None => "undefined"
               end
           end)
        (parsedRows protoLabelState) /\
  (forall v x, v ∈ [[1]; [2]]%float -> x ∈ v -> Number_isFinite x = true).
Proof.
  apply (extraction_returns_parsed_rows protoLabelState).
  vm_compute. reflexivity.
Defined.

(** X2: extraction returns exactly when there is at least one row, at
    least one selected feature column, a label column name that is not empty,
    and every selected cell of every row parses as a finite number. *)
Theorem extraction_succeeds_iff (st : State) :
  (exists features labels,
     computeFeaturesAndLabels st = Ok (features, labels))
  <->
  parsedRows st <> [] /\ featureColumns st <> [] /\
  labelColumn st <> EmptyString /\
  (forall row column, row ∈ parsedRows st -> column ∈ featureColumns st ->
     Number_isFinite (Number (row !! column)) = true).
Proof.
  split.
  - intros (features & labels & H).
    destruct (computeFeaturesAndLabels_Ok_guard _ _ _ H) as (Hr & Hf & Hl).
    repeat split; try done.
    intros row column Hrow Hcol.
    rewrite guard_passes in H by done.
    apply extractRows_Ok_iff in H as (fs & Hfs & _).
    apply list_elem_of_lookup_1 in Hrow as [i Hi].
    destruct (Forall2_lookup_l _ _ _ _ _ Hfs Hi) as (v & _ & Hv).
    apply (proj1 (row_parses_iff (featureColumns st) row)); eauto.
  - intros (Hr & Hf & Hl & Hcells).
    rewrite guard_passes by done.
    destruct (extractRows (featureColumns st) (labelColumn st) (parsedRows st)
                [] []) as [[F L]|e] eqn:E; [eauto|].
    exfalso.
    destruct (extractRows_Throw_inv _ _ _ _ _ _ E)
      as (pre & row & post & Hrows & _ & Hrow).
    assert (Hok : exists v, mapE (featureCell row) (featureColumns st) = Ok v).
    { apply row_parses_iff. intros column Hc. apply Hcells; [|done].
      rewrite Hrows, elem_of_app, elem_of_cons. auto. }
    destruct Hok as [v Hv]. congruence.
Qed.

End ExtractionExtras.

(* ===================================================================== *)
(** ** More on training runs *)
(* ===================================================================== *)

Module TrainingExtras.
Import JsNumber Exn MlSvm Page Examples ExtractionFacts TrainingFacts.

(** The synchronous part returns a plan exactly as follows. *)
Lemma prepareTraining_Ok_inv (st : State) (plan : TrainingPlan) :
  prepareTraining st = Ok plan ->
  exists features labels,
    computeFeaturesAndLabels st = Ok (features, labels) /\
    2 <= length (Set_from labels) /\
    plan = {| planFeatures := features;
              planLabels := labels;
              planUniqueLabels := Set_from labels;
              planOptions := svmOptions st (length (featureColumns st)) |}.
Proof.
  intros H.
  destruct (computeFeaturesAndLabels st) as [[features labels]|e] eqn:E.
  2: { unfold prepareTraining in H. rewrite E in H. discriminate. }
  exists features, labels. split; [done|].
  destruct (le_lt_dec 2 (size (list_to_set labels : gset string)))
    as [Hmany | Hfew].
  - rewrite (prepareTraining_enough_labels _ _ _ E Hmany) in H.
    injection H as <-. rewrite Set_from_length. done.
  - rewrite (prepareTraining_few_labels _ _ _ E Hfew) in H. discriminate.
Qed.

Lemma nonNumericMessage_head (column : string) :
  exists rest, nonNumericMessage column = String "C" rest.
Proof. unfold nonNumericMessage. simpl. eauto. Qed.

(** X3: the errors of the synchronous part of [trainModel].  Before the
    training loop the only errors thrown are the configuration error, the
    non-numeric error of a selected feature column, and the error for fewer
    than two distinct labels; the checks "No training data available." and
    "Select at least one feature column." never fire. *)
Theorem prepareTraining_errors (st : State) :
  (forall e, prepareTraining st = Throw e ->
     e = configurationMissing \/
     (exists column, column ∈ featureColumns st /\
                     e = ErrorObj (nonNumericMessage column)) \/
     e = ErrorObj "At least two unique labels are required.") /\
  prepareTraining st <> Throw (ErrorObj "No training data available.") /\
  prepareTraining st <> Throw (ErrorObj "Select at least one feature column.").
Proof.
  assert (Hcases : forall e, prepareTraining st = Throw e ->
     e = configurationMissing \/
     (exists column, column ∈ featureColumns st /\
                     e = ErrorObj (nonNumericMessage column)) \/
     e = ErrorObj "At least two unique labels are required.").
  { intros e H.
    destruct (computeFeaturesAndLabels st) as [[features labels]|e'] eqn:E.
    - destruct (le_lt_dec 2 (size (list_to_set labels : gset string)))
        as [Hmany | Hfew].
      + rewrite (prepareTraining_enough_labels _ _ _ E Hmany) in H.
        discriminate.
      + rewrite (prepareTraining_few_labels _ _ _ E Hfew) in H.
        injection H as <-. auto.
    - unfold prepareTraining in H. rewrite E in H. injection H as <-.
      unfold computeFeaturesAndLabels in E.
      destruct (_ || _) in E; [injection E as <-; auto|].
      right. left.
      destruct (extractRows_Throw_inv _ _ _ _ _ _ E)
        as (pre & row & post & _ & _ & Hrow).
      destruct (mapE_Throw_inv _ _ _ Hrow)
        as (cpre & column & cpost & Hcols & _ & Hcell).
      apply featureCell_Throw_iff in Hcell as [_ ->].
      exists column. split; [|done].
      rewrite Hcols, elem_of_app, elem_of_cons. auto. }
  split; [exact Hcases|].
  split; intros H; destruct (Hcases _ H) as [E | [(c & _ & E) | E]];
    try discriminate;
    destruct (nonNumericMessage_head c) as [rest Hrest];
    rewrite Hrest in E; discriminate.
Qed.

(** X4: every binary problem handed to the library has both classes.
    Whenever the synchronous part of [trainModel] returns, then for each
    distinct label the binary label vector is as long as the feature matrix,
    consists of +1 and -1 only, and contains at least one +1 and at least one
    -1. *)
Theorem binary_problems_have_both_classes
    (st : State) (plan : TrainingPlan) (target : string) :
  prepareTraining st = Ok plan ->
  target ∈ planUniqueLabels plan ->
  length (binaryLabels (planLabels plan) target) = length (planFeatures plan) /\
  (forall y, y ∈ binaryLabels (planLabels plan) target ->
     y = 1%float \/ y = (-1)%float) /\
  1%float ∈ binaryLabels (planLabels plan) target /\
  (-1)%float ∈ binaryLabels (planLabels plan) target.
Proof.
  intros Hplan Htarget.
  destruct (prepareTraining_Ok_inv _ _ Hplan)
    as (features & labels & Hext & Hmany & ->).
  simpl in *.
  destruct (Set_from_spec labels) as (Hnd & Hin & _).
  destruct (computeFeaturesAndLabels_shape _ _ _ Hext) as (_ & Hlen & _).
  unfold binaryLabels. split; [by rewrite length_map|].
  split; [|split].
  - intros y Hy. apply list_elem_of_fmap in Hy as (value & -> & _).
    case_bool_decide; auto.
  - apply list_elem_of_fmap. exists target.
    rewrite bool_decide_eq_true_2 by done. split; [done|].
    apply Hin, Htarget.
  - assert (exists other, other ∈ Set_from labels /\ other <> target)
      as (other & Hother & Hne).
    { destruct (Set_from labels) as [|a [|b rest]] eqn:E;
        simpl in Hmany; try lia.
      destruct (decide (a = target)) as [->|Ha].
      - exists b. split; [right; left|].
        intros ->. apply NoDup_cons in Hnd as [Hnd _].
        apply Hnd. left.
      - exists a. split; [left|done]. }
    apply list_elem_of_fmap. exists other.
    rewrite bool_decide_eq_false_2 by done. split; [done|].
    apply Hin, Hother.
Qed.

Lemma binary_problems_have_both_classes_witness :
  length (binaryLabels ["A"; "B"; "A"; "B"] "B") = 4 /\
  (forall y, y ∈ binaryLabels ["A"; "B"; "A"; "B"] "B" ->
     y = 1%float \/ y = (-1)%float) /\
  1%float ∈ binaryLabels ["A"; "B"; "A"; "B"] "B" /\
  (-1)%float ∈ binaryLabels ["A"; "B"; "A"; "B"] "B".
Proof.
  apply (binary_problems_have_both_classes xyState
           {| planFeatures := [[2; 1]; [-3; 0.5]; [1.5; -1]; [-1; 2]]%float;
              planLabels := ["A"; "B"; "A"; "B"];
              planUniqueLabels := ["A"; "B"];
              planOptions := svmOptions xyState 2 |} "B").
  - vm_compute. reflexivity.
  - right. left.
Defined.

(** X5: how a call of [trainModel] can end, whatever the library does.
    Either it is fulfilled after a reported failure (status "Training
    failed", an error message, no model), or it is fulfilled after a
    successful run (status "Model trained", no error, the prediction cleared,
    an accuracy, and a model of at least two classifiers whose labels are
    pairwise distinct and each occur in the label column of some row), or it
    never settles and only the status cell has changed.  In no case is a
    configuration cell changed. *)
Theorem trainModel_outcomes (train : Trainer) (st : State) :
  match trainModel train st with
  | Fulfilled st' =>
      (parsedRows st' = parsedRows st /\ columns st' = columns st /\
       labelColumn st' = labelColumn st /\
       featureColumns st' = featureColumns st /\
       predictionInput st' = predictionInput st /\
       gamma st' = gamma st /\ cost st' = cost st /\ kernel st' = kernel st)
      /\
      ((status st' = "Training failed" /\ models st' = None /\
        exists message, trainingError st' = Some message)
       \/
       (status st' = "Model trained" /\ trainingError st' = None /\
        prediction st' = EmptyString /\
        exists ms accuracy,
          models st' = Some ms /\ trainingAccuracy st' = Some accuracy /\
          2 <= length ms /\ NoDup (map label ms) /\
          forall m, m ∈ ms ->
            exists row, row ∈ parsedRows st /\
                        label m = labelText row (labelColumn st)))
  | NeverSettles st' _ => st' = setStatus "Training…" st
  end.
Proof.
  unfold trainModel.
  destruct (prepareTraining st) as [plan|e] eqn:Hplan.
  - destruct (prepareTraining_Ok_inv _ _ Hplan)
      as (features & labels & Hext & Hmany & ->).
    simpl.
    destruct (trainLoop train _ features labels (Set_from labels) [])
      as [ms|e] eqn:Hloop; [|reflexivity].
    split; [done|]. right. simpl.
    apply trainLoop_Ok_iff in Hloop as (new & -> & Hnew). simpl.
    assert (Hlabels : map label new = Set_from labels).
    { clear -Hnew. induction Hnew as [|t m ts ms [Hl _] _ IH]; simpl;
        [done|congruence]. }
    destruct (Set_from_spec labels) as (Hnd & Hin & _).
    repeat split; try done.
    exists new. eexists. repeat split.
    + rewrite <- (length_map label), Hlabels. exact Hmany.
    + rewrite Hlabels. exact Hnd.
    + intros m Hm.
      assert (Hl : label m ∈ labels).
      { apply Hin. rewrite <- Hlabels. apply list_elem_of_fmap. eauto. }
      destruct (computeFeaturesAndLabels_Ok_inv _ _ _ Hext) as [_ ->].
      apply list_elem_of_fmap in Hl as (row & Hrow & Hin').
      eauto.
  - split; [done|]. left. simpl. repeat split.
    destruct e; eauto.
Qed.

End TrainingExtras.

(* ===================================================================== *)
(** ** More on prediction *)
(* ===================================================================== *)

Module DecisionExtras.
Import JsNumber Exn MlSvm Page Handlers Examples HandlerExamples.
Import JsNumberFacts DecisionFacts ExtractionFacts TrainingFacts TrainingExtras.

(** X6: the sentinel.  When no pair's score exceeds -Infinity, as for an
    empty model or for classifiers whose margin is not finite and whose class
    code is NaN or -Infinity, the decision loop returns the empty string. *)
Theorem decision_loop_sentinel (ms : list TrainedModel) (vector : list number) :
  (forall m, m ∈ ms -> gt (modelScore m vector) negInfinity = false) ->
  selectBestLabel ms vector = EmptyString.
Proof.
  unfold selectBestLabel. induction ms as [|m ms IH]; intros H; simpl; [done|].
  rewrite (H m) by left. apply IH. intros m' Hm'. apply H. right. exact Hm'.
Qed.

Lemma decision_loop_sentinel_witness :
  selectBestLabel brokenModels [1%float] = EmptyString.
Proof.
  apply (decision_loop_sentinel brokenModels [1%float]).
  intros m Hm. unfold brokenModels in Hm.
  repeat (apply elem_of_cons in Hm as [-> | Hm]; [reflexivity|]).
  inversion Hm.
Defined.

Lemma predictionCell_Ok_iff (st : State) (column : string) (x : number) :
  predictionCell st column = Ok x <->
  Number_isFinite (Number (predictionInput st !! column)) = true /\
  x = Number (predictionInput st !! column).
Proof.
  unfold predictionCell. rewrite isFinite_parseFeatureValue.
  unfold parseFeatureValue.
  destruct (Number_isFinite (Number (predictionInput st !! column))) eqn:E.
  - split; [intros [= <-]; done | intros [_ ->]; done].
  - split; [discriminate | intros [? _]; discriminate].
Qed.

Lemma predictionCell_Throw_iff (st : State) (column : string) (e : thrown) :
  predictionCell st column = Throw e <->
  Number_isFinite (Number (predictionInput st !! column)) = false /\
  e = ErrorObj (predictionInputMessage column).
Proof.
  unfold predictionCell. rewrite isFinite_parseFeatureValue.
  destruct (Number_isFinite (Number (predictionInput st !! column))) eqn:E.
  - split; [discriminate | intros [? _]; discriminate].
  - split; [intros [= <-]; done | intros [_ ->]; done].
Qed.

(** X7: a prediction input that is not a number.  With a committed model
    and selected feature columns, if the input of some selected column does
    not parse as a finite number, [handlePredict] shows the message naming the
    first such column in selection order, and changes no other cell: the
    model, its accuracy and the status stay as they were. *)
Theorem predict_reports_first_bad_input
    (st : State) (ms : list TrainedModel) :
  models st = Some ms -> ms <> [] ->
  (exists column, column ∈ featureColumns st /\
     Number_isFinite (Number (predictionInput st !! column)) = false) ->
  exists before column rest,
    featureColumns st = before ++ column :: rest /\
    (forall c, c ∈ before ->
       Number_isFinite (Number (predictionInput st !! c)) = true) /\
    Number_isFinite (Number (predictionInput st !! column)) = false /\
    handlePredict st = setPrediction (predictionInputMessage column) st.
Proof.
  intros Hms Hne (c0 & Hc0 & Hbad0).
  unfold handlePredict. rewrite Hms.
  assert (Hguard : Nat.eqb (length ms) 0
                   || Nat.eqb (length (featureColumns st)) 0 = false).
  { destruct ms; [done|].
    destruct (featureColumns st); [inversion Hc0|]. reflexivity. }
  rewrite Hguard.
  destruct (mapE (predictionCell st) (featureColumns st)) as [v|e] eqn:E.
  - exfalso. apply mapE_Ok_iff in E.
    apply list_elem_of_lookup_1 in Hc0 as [j Hj].
    destruct (Forall2_lookup_l _ _ _ _ _ E Hj) as (x & _ & Hx).
    apply predictionCell_Ok_iff in Hx as [Hx _]. congruence.
  - destruct (mapE_Throw_inv _ _ _ E)
      as (before & column & rest & Hcols & Hbefore & Hcell).
    apply predictionCell_Throw_iff in Hcell as [Hbad ->].
    exists before, column, rest.
    split; [exact Hcols|]. split; [|split; [exact Hbad|reflexivity]].
    intros c Hc. rewrite Forall_forall in Hbefore.
    destruct (Hbefore c Hc) as [x Hx].
    apply predictionCell_Ok_iff in Hx as [Hx _]. exact Hx.
Qed.

Lemma predict_reports_first_bad_input_witness :
  exists before column rest,
    featureColumns badInputState = before ++ column :: rest /\
    (forall c, c ∈ before ->
       Number_isFinite (Number (predictionInput badInputState !! c)) = true) /\
    Number_isFinite (Number (predictionInput badInputState !! column)) = false /\
    handlePredict badInputState
    = setPrediction (predictionInputMessage column) badInputState.
Proof.
  apply (predict_reports_first_bad_input badInputState tiedModels).
  - reflexivity.
  - discriminate.
  - exists "y". split; [right; left|]. vm_compute. reflexivity.
Defined.

(** X8: blank prediction inputs.  With a committed model, if the input of
    every selected feature column is the empty string (as it is right after a
    dataset is loaded or the label column changed), [handlePredict] reports
    no error: it predicts for the vector of zeros. *)
Theorem predict_blank_inputs_is_zero_vector
    (st : State) (ms : list TrainedModel) :
  models st = Some ms -> ms <> [] -> featureColumns st <> [] ->
  (forall column, column ∈ featureColumns st ->
     predictionInput st !! column = Some EmptyString) ->
  handlePredict st
  = setPrediction
      (selectBestLabel ms (replicate (length (featureColumns st)) 0%float)) st.
Proof.
  intros Hms Hne Hfc Hblank.
  unfold handlePredict. rewrite Hms.
  destruct ms as [|m ms']; [done|].
  destruct (featureColumns st) as [|f fs] eqn:E; [done|].
  rewrite <- E in *.
  replace (Nat.eqb (length (m :: ms')) 0 || Nat.eqb (length (featureColumns st)) 0)
    with false by (rewrite E; reflexivity).
  assert (Hvec : mapE (predictionCell st) (featureColumns st)
                 = Ok (replicate (length (featureColumns st)) 0%float)).
  { clear E Hfc. induction (featureColumns st) as [|c cs IH]; simpl; [done|].
    unfold predictionCell at 1. rewrite (Hblank c) by left. simpl.
    rewrite IH; [done|]. intros c' Hc'. apply Hblank. right. exact Hc'. }
  rewrite Hvec. reflexivity.
Qed.

Lemma predict_blank_inputs_is_zero_vector_witness :
  handlePredict xyTrained
  = setPrediction
      (selectBestLabel (default [] (models xyTrained))
         (replicate (length (featureColumns xyTrained)) 0%float))
      xyTrained.
Proof.
  apply (predict_blank_inputs_is_zero_vector xyTrained
           (default [] (models xyTrained))).
  - vm_compute. reflexivity.
  - vm_compute. discriminate.
  - vm_compute. discriminate.
  - intros column Hc.
    change (featureColumns xyTrained) with ["x"; "y"] in Hc.
    repeat (apply elem_of_cons in Hc as [-> | Hc];
            [vm_compute; reflexivity|]).
    inversion Hc.
Defined.

(** X9: training and prediction composed.  After a training run that
    committed a model, with prediction inputs that parse and class codes +1 or
    -1 wherever a margin is not finite, the label [handlePredict] shows is the
    text of the label cell of some row of the dataset. *)
Theorem prediction_is_a_dataset_label
    (train : Trainer) (st st' : State) (ms : list TrainedModel)
    (vector : list number) :
  trainModel train st = Fulfilled st' ->
  models st' = Some ms ->
  mapE (predictionCell st') (featureColumns st') = Ok vector ->
  (forall m, m ∈ ms ->
     Number_isFinite (marginOne (svm m) vector) = false ->
     predictOne (svm m) vector = 1%float \/
     predictOne (svm m) vector = (-1)%float) ->
  exists row,
    row ∈ parsedRows st /\
    prediction (handlePredict st') = labelText row (labelColumn st).
Proof.
  intros Hrun Hms Hvec Hcode.
  pose proof (trainModel_outcomes train st) as Hout. rewrite Hrun in Hout.
  destruct Hout as [(_ & _ & _ & Hfc & _) [(_ & Hnone & _) | Hok]];
    [congruence|].
  destruct Hok as (_ & _ & _ & ms' & accuracy & Hms' & _ & Hlen & _ & Hrows).
  assert (ms' = ms) as -> by congruence.
  assert (Hne : ms <> []) by (intros ->; simpl in Hlen; lia).
  destruct (selectBestLabel_first_greatest ms vector Hne)
    as (i & m & Hi & Hr & _).
  { intros m Hm. apply modelScore_finite, Hcode, Hm. }
  destruct (Hrows m) as (row & Hrow & Hlabel);
    [eapply list_elem_of_lookup_2; exact Hi|].
  exists row. split; [done|].
  unfold handlePredict. rewrite Hms, Hvec.
  destruct ms; [done|].
  destruct (featureColumns st') as [|f fs] eqn:E.
  - exfalso. pose proof (trainModel_outcomes train st) as Hout.
    unfold trainModel in Hrun, Hout.
    destruct (prepareTraining st) as [plan|e] eqn:Hplan.
    + destruct (prepareTraining_Ok_inv _ _ Hplan) as (F & L & Hext & _).
      destruct (computeFeaturesAndLabels_Ok_guard _ _ _ Hext) as (_ & Hf & _).
      congruence.
    + injection Hrun as <-. discriminate.
  - simpl. congruence.
Qed.

Lemma prediction_is_a_dataset_label_witness :
  exists row,
    row ∈ parsedRows xyLoaded /\
    prediction (handlePredict xyTrained)
    = labelText row (labelColumn xyLoaded).
Proof.
  apply (prediction_is_a_dataset_label signedSumTrainer xyLoaded xyTrained
           (default [] (models xyTrained)) [0%float; 0%float]).
  - vm_compute. reflexivity.
  - vm_compute. reflexivity.
  - vm_compute. reflexivity.
  - intros m Hm Hmargin. exfalso.
    assert (Hall : forallb (fun m => Number_isFinite
                              (marginOne (svm m) [0%float; 0%float]))
                           (default [] (models xyTrained)) = true)
      by (vm_compute; reflexivity).
    rewrite forallb_forall in Hall.
    apply list_elem_of_In, Hall in Hm. congruence.
Defined.

End DecisionExtras.

(* ===================================================================== *)
(** ** The configuration handlers and the session *)
(* ===================================================================== *)

Module HandlerExtras.
Import JsNumber Exn MlSvm Page Handlers Examples HandlerExamples.
Import ExtractionFacts TrainingFacts TrainingExtras HandlerFacts.

(** X10: toggling a feature column flips its selection and nothing
    else's: afterwards the column is selected exactly when it was not before,
    every other column is selected exactly when it was, and the model, the
    accuracy and the prediction are discarded. *)
Theorem toggle_flips_one_column (column : string) (st : State) :
  (column ∈ featureColumns (handleFeatureToggle column st)
   <-> column ∉ featureColumns st) /\
  (forall other, other <> column ->
     (other ∈ featureColumns (handleFeatureToggle column st)
      <-> other ∈ featureColumns st)) /\
  models (handleFeatureToggle column st) = None /\
  trainingAccuracy (handleFeatureToggle column st) = None /\
  prediction (handleFeatureToggle column st) = EmptyString.
Proof.
  unfold handleFeatureToggle. simpl.
  case_bool_decide as Hsel; (split; [|split; [|done]]).
  - rewrite list_elem_of_filter. tauto.
  - intros other Hne. rewrite list_elem_of_filter. tauto.
  - rewrite elem_of_app, list_elem_of_singleton. tauto.
  - intros other Hne. rewrite elem_of_app, list_elem_of_singleton. tauto.
Qed.

Lemma filter_keeps_all (column : string) (l : list string) :
  column ∉ l -> filter (fun item => item <> column) l = l.
Proof.
  induction l as [|x l IH]; intros H; [done|].
  apply not_elem_of_cons in H as [Hx Hl].
  rewrite filter_cons_True by (intros ->; done). by rewrite IH.
Qed.

Lemma filter_keeps_none {A : Type} (P : A -> Prop) `{!forall x, Decision (P x)}
    (l : list A) :
  Forall (fun x => ~ P x) l -> filter P l = [].
Proof.
  induction 1 as [|x l Hx _ IH]; [done|].
  rewrite filter_cons_False by done. exact IH.
Qed.

Lemma filter_none_kept {A : Type} (P : A -> Prop) `{!forall x, Decision (P x)}
    (l : list A) :
  filter P l = [] -> Forall (fun x => ~ P x) l.
Proof.
  induction l as [|x l IH]; [constructor|].
  rewrite filter_cons. destruct (decide (P x)); [discriminate|].
  intros E. constructor; auto.
Qed.

Lemma toggle_cells (column : string) (st : State) :
  featureColumns (handleFeatureToggle column st)
  = (if bool_decide (column ∈ featureColumns st)
     then filter (fun item => item <> column) (featureColumns st)
     else featureColumns st ++ [column]) /\
  predictionInput (handleFeatureToggle column st)
  = (if bool_decide (column ∈ featureColumns st)
     then delete column (predictionInput st)
     else <[column := EmptyString]> (predictionInput st)).
Proof. split; reflexivity. Qed.

(** X11: selecting a column and deselecting it again is a round trip.
    For a column that is not selected and has no prediction input, two
    toggles restore the selected feature columns, in order, and the prediction
    inputs. *)
Theorem toggle_on_off_round_trip (column : string) (st : State) :
  column ∉ featureColumns st ->
  predictionInput st !! column = None ->
  featureColumns (handleFeatureToggle column (handleFeatureToggle column st))
  = featureColumns st /\
  predictionInput (handleFeatureToggle column (handleFeatureToggle column st))
  = predictionInput st.
Proof.
  intros Hnot Hnone.
  destruct (toggle_cells column st) as [Hf Hp].
  rewrite bool_decide_eq_false_2 in Hf, Hp by done.
  destruct (toggle_cells column (handleFeatureToggle column st)) as [Hf2 Hp2].
  rewrite Hf2, Hp2, Hf, Hp.
  rewrite bool_decide_eq_true_2
    by (rewrite elem_of_app, list_elem_of_singleton; auto).
  split.
  - rewrite filter_app, (filter_keeps_all column (featureColumns st)) by done.
    rewrite filter_cons_False by (intros H; done).
    rewrite filter_nil, app_nil_r. done.
  - rewrite delete_insert_eq. apply delete_id. exact Hnone.
Qed.

Lemma toggle_on_off_round_trip_witness :
  featureColumns (handleFeatureToggle "z" (handleFeatureToggle "z" xyLoaded))
  = featureColumns xyLoaded /\
  predictionInput (handleFeatureToggle "z" (handleFeatureToggle "z" xyLoaded))
  = predictionInput xyLoaded.
Proof.
  apply (toggle_on_off_round_trip "z" xyLoaded).
  - change (featureColumns xyLoaded) with ["x"; "y"].
    intros H. repeat (apply elem_of_cons in H as [H | H]; [discriminate|]).
    inversion H.
  - vm_compute. reflexivity.
Defined.



(** X13: changing the label column selects every other column.  After the
    label menu's handler the selected feature columns are the dataset's
    columns other than the new label, in column order, whatever was selected
    before; each has a blank prediction input and there are no other inputs;
    the model, the accuracy and the prediction are discarded. *)
Theorem label_change_selects_all_other_columns
    (nextLabel : string) (st : State) :
  labelColumn (handleLabelChange nextLabel st) = nextLabel /\
  (nextLabel ∉ featureColumns (handleLabelChange nextLabel st)) /\
  (forall column,
     column ∈ featureColumns (handleLabelChange nextLabel st)
     <-> column ∈ columns st /\ column <> nextLabel) /\
  (forall column,
     predictionInput (handleLabelChange nextLabel st) !! column
     = if bool_decide (column ∈ columns st /\ column <> nextLabel)
       then Some EmptyString else None) /\
  models (handleLabelChange nextLabel st) = None /\
  trainingAccuracy (handleLabelChange nextLabel st) = None /\
  prediction (handleLabelChange nextLabel st) = EmptyString.
Proof.
  unfold handleLabelChange. simpl.
  split; [done|]. split; [rewrite list_elem_of_filter; tauto|].
  split; [intros column; rewrite list_elem_of_filter; tauto|].
  split; [|done].
  intros column. case_bool_decide as H.
  - apply blankInputs_lookup. rewrite list_elem_of_filter. tauto.
  - apply not_elem_of_dom. rewrite dom_blankInputs, elem_of_list_to_set,
      list_elem_of_filter. tauto.
Qed.

(** A change of configuration discards the model.  After the label
    menu, a feature toggle, the kernel menu, the cost field or the gamma field
    has run its handler there is no committed model, accuracy or prediction,
    whatever the value chosen; editing a prediction input keeps all three. *)
Lemma configuration_change_discards_model (ev : Event) (st : State)
    (Papa_parse : Parser) (train : Trainer) :
  match ev with
  | ChangeLabel _ | ToggleFeature _ | ChangeKernel _ | ChangeCost _
  | ChangeGamma _ =>
      models (after Papa_parse train ev st) = None /\
      trainingAccuracy (after Papa_parse train ev st) = None /\
      prediction (after Papa_parse train ev st) = EmptyString
  | EditInput _ _ =>
      models (after Papa_parse train ev st) = models st /\
      trainingAccuracy (after Papa_parse train ev st) = trainingAccuracy st /\
      prediction (after Papa_parse train ev st) = prediction st
  | LoadCSV _ | UploadFile _ | Train | Predict => True
  end.
Proof.
  destruct ev; simpl; try done.
  unfold handleGammaChange.
  destruct (Nat.eqb (String.length raw) 0); done.
Qed.

(** X14: a failed load changes nothing but the error message.  When the
    parse reports an error, or keeps no row with a non-empty cell, or detects
    no column, [handleCSVContent] only sets the training error; the dataset,
    the selection, the model with its accuracy and the status stay as they
    were. *)
Theorem failed_load_keeps_the_session
    (Papa_parse : Parser) (csv : string) (st : State) :
  errors (Papa_parse csv) <> [] \/
  Forall (fun row => someValueNotEmpty row = false) (data (Papa_parse csv)) \/
  fields (Papa_parse csv) = None \/ fields (Papa_parse csv) = Some [] ->
  exists message,
    handleCSVContent Papa_parse csv st = setTrainingError (Some message) st.
Proof.
  intros H. unfold handleCSVContent.
  destruct (errors (Papa_parse csv)) as [|e es]; [|eauto].
  destruct H as [H | [H | H]]; [done| |].
  - rewrite filter_keeps_none.
    + simpl. eauto.
    + eapply Forall_impl; [exact H|]. intros row Hrow. simpl in *. congruence.
  - assert (default [] (fields (Papa_parse csv)) = []) as ->
      by (destruct H as [-> | ->]; reflexivity).
    simpl. rewrite orb_true_r. eauto.
Qed.

Lemma failed_load_keeps_the_session_witness :
  exists message,
    handleCSVContent failingParse "a;b" xyTrained
    = setTrainingError (Some message) xyTrained.
Proof.
  apply (failed_load_keeps_the_session failingParse "a;b" xyTrained).
  left. discriminate.
Defined.

(** X15: a successful load.  When the parse reports no error, detects the
    columns [cols] and some row has a non-empty cell, [handleCSVContent]
    keeps, in order, exactly the rows that have a non-empty cell; the label
    column is the last detected column; the selected feature columns are the
    detected columns other than that one, in order; every prediction input is
    blank; and any model, accuracy, prediction and error are discarded. *)
Theorem successful_load (Papa_parse : Parser) (csv : string) (st : State)
    (cols : list string) (labelCol : string) :
  errors (Papa_parse csv) = [] ->
  fields (Papa_parse csv) = Some cols ->
  last cols = Some labelCol ->
  Exists (fun row => someValueNotEmpty row = true) (data (Papa_parse csv)) ->
  handleCSVContent Papa_parse csv st
  = {| parsedRows := filter (fun row => someValueNotEmpty row = true)
                            (data (Papa_parse csv));
       columns := cols;
       labelColumn := labelCol;
       featureColumns := filter (fun column => column <> labelCol) cols;
       status := "Dataset loaded";
       trainingAccuracy := None;
       models := None;
       predictionInput :=
         blankInputs (filter (fun column => column <> labelCol) cols);
       prediction := EmptyString;
       trainingError := None;
       gamma := gamma st;
       cost := cost st;
       kernel := kernel st |}.
Proof.
  intros Herr Hfields Hlast Hsome. unfold handleCSVContent.
  rewrite Herr, Hfields. simpl.
  assert (Hrows : filter (fun row => someValueNotEmpty row = true)
                         (data (Papa_parse csv)) <> []).
  { intros E. apply filter_none_kept in E. rewrite Forall_forall in E.
    apply Exists_exists in Hsome as (row & Hrow & Htrue).
    exact (E row Hrow Htrue). }
  assert (Hcols : cols <> []) by (intros ->; discriminate).
  destruct (filter _ (data (Papa_parse csv))) as [|r rs] eqn:Efilter; [done|].
  destruct cols as [|c cs] eqn:Ecols; [done|]. rewrite <- Ecols in *.
  replace (Nat.eqb (length (r :: rs)) 0 || Nat.eqb (length cols) 0)
    with false by (rewrite Ecols; reflexivity).
  rewrite last_lookup in Hlast.
  replace (length cols - 1) with (pred (length cols)) by lia.
  rewrite Hlast. reflexivity.
Qed.

Lemma successful_load_witness :
  handleCSVContent xyParse "x,y,class" initialState
  = {| parsedRows := filter (fun row => someValueNotEmpty row = true)
                            (data (xyParse "x,y,class"));
       columns := ["x"; "y"; "class"];
       labelColumn := "class";
       featureColumns :=
         filter (fun column => column <> "class") ["x"; "y"; "class"];
       status := "Dataset loaded";
       trainingAccuracy := None;
       models := None;
       predictionInput :=
         blankInputs (filter (fun column => column <> "class")
                             ["x"; "y"; "class"]);
       prediction := EmptyString;
       trainingError := None;
       gamma := gamma initialState;
       cost := cost initialState;
       kernel := kernel initialState |}.
Proof.
  apply (successful_load xyParse "x,y,class" initialState
           ["x"; "y"; "class"] "class").
  - reflexivity.
  - reflexivity.
  - reflexivity.
  - left. vm_compute. reflexivity.
Defined.

(** [trainModel] keeps a well-formed state well-formed, however it ends. *)
Lemma wellFormed_trainModel (train : Trainer) (st : State) :
  wellFormed st ->
  wellFormed (match trainModel train st with
              | Fulfilled st' => st'
              | NeverSettles st' _ => st'
              end).
Proof.
  intros Hwf. pose proof (trainModel_outcomes train st) as Hout.
  destruct (trainModel train st) as [st'|st' e].
  - destruct Hout as [(Hr & Hc & Hl & Hf & Hp & Hg & Hco & _) Hcases].
    eapply wellFormed_same_configuration; [exact Hwf|done..|].
    intros ms Hms.
    destruct Hcases as [(_ & Hnone & _) | (_ & _ & _ & ms' & a & Hms' & _ & H)];
      [congruence|].
    assert (ms' = ms) as -> by congruence. tauto.
  - subst st'.
    eapply wellFormed_same_configuration; [exact Hwf|done..|apply Hwf].
Qed.

(** X16: the invariant of a session.  In every state reached from the
    initial one by handlers the rendered page can run, whatever the parser and
    the library do: the prediction inputs are exactly those of the selected
    feature columns; the label column is not a feature column; the feature
    columns and (once there are columns) the label column are dataset columns;
    there are rows exactly when there are columns, and every row has a
    non-empty cell; gamma, when set, and the cost are finite and positive; and
    a committed model has at least two classifiers with pairwise distinct
    labels. *)
Theorem reachable_states_are_wellFormed
    (Papa_parse : Parser) (train : Trainer) (st : State) :
  reachable Papa_parse train st -> wellFormed st.
Proof.
  induction 1 as [|ev st Hreach IH Hen].
  - apply wellFormed_initial.
  - destruct ev; simpl in *.
    + apply wellFormed_handleCSVContent, IH.
    + apply wellFormed_handleFileUpload, IH.
    + apply wellFormed_handleLabelChange; [exact Hen|exact IH].
    + destruct Hen. apply wellFormed_handleFeatureToggle; done.
    + apply wellFormed_handleKernelChange, IH.
    + apply wellFormed_handleCostChange, IH.
    + apply wellFormed_handleGammaChange, IH.
    + apply wellFormed_handlePredictionInputChange; [exact Hen|exact IH].
    + apply wellFormed_trainModel, IH.
    + apply wellFormed_handlePredict, IH.
Qed.

Lemma xyTrained_reachable : reachable xyParse signedSumTrainer xyTrained.
Proof.
  apply (reachable_after xyParse signedSumTrainer Train xyLoaded).
  - apply (reachable_after xyParse signedSumTrainer (LoadCSV "x,y,class")
             initialState).
    + apply reachable_initial.
    + exact I.
  - split; intros H; vm_compute in H; discriminate H.
Defined.

Lemma reachable_states_are_wellFormed_witness : wellFormed xyTrained.
Proof.
  apply (reachable_states_are_wellFormed xyParse signedSumTrainer xyTrained).
  exact xyTrained_reachable.
Defined.

(** X17: the train button is only enabled on a complete configuration.
    In a reachable state in which the train button is enabled there are rows,
    so [computeFeaturesAndLabels] passes its guard: the error "Dataset,
    features, or label configuration missing." is not thrown, and [trainModel]
    does not report it. *)
Theorem enabled_training_passes_the_guard
    (Papa_parse : Parser) (train : Trainer) (st : State) :
  reachable Papa_parse train st ->
  enabled Train st ->
  parsedRows st <> [] /\
  computeFeaturesAndLabels st <> Throw configurationMissing /\
  forall st', trainModel train st = Fulfilled st' ->
    trainingError st'
    <> Some "Dataset, features, or label configuration missing.".
Proof.
  intros Hreach [Hfc Hl].
  pose proof (reachable_states_are_wellFormed _ _ _ Hreach) as Hwf.
  assert (Hrows : parsedRows st <> []).
  { intros E. apply (wf_rows_iff_columns _ Hwf) in E.
    destruct (featureColumns st) as [|c cs] eqn:Ef; [done|].
    assert (Hc : c ∈ columns st)
      by (apply (wf_features_are_columns _ Hwf); rewrite Ef; left).
    rewrite E in Hc. inversion Hc. }
  assert (Hguard : computeFeaturesAndLabels st <> Throw configurationMissing).
  { rewrite guard_passes by done. intros E.
    destruct (extractRows_Throw_inv _ _ _ _ _ _ E)
      as (pre & row & post & _ & _ & Hrow).
    destruct (mapE_Throw_inv _ _ _ Hrow)
      as (cpre & column & cpost & _ & _ & Hcell).
    apply featureCell_Throw_iff in Hcell as [_ Hmsg].
    destruct (nonNumericMessage_head column) as [rest Hrest].
    unfold configurationMissing in Hmsg. rewrite Hrest in Hmsg.
    discriminate. }
  split; [done|]. split; [done|].
  intros st' Hrun Herr. unfold trainModel in Hrun.
  destruct (prepareTraining st) as [plan|e] eqn:Hplan.
  - destruct (trainLoop _ _ _ _ _ _) in Hrun; [|discriminate].
    injection Hrun as <-. discriminate.
  - injection Hrun as <-.
    destruct (proj1 (prepareTraining_errors st) e Hplan)
      as [-> | [(c & _ & ->) | ->]].
    + apply Hguard. unfold prepareTraining in Hplan.
      destruct (computeFeaturesAndLabels st) as [[F L]|e']; [|congruence].
      destruct (Nat.eqb (length F) 0); [discriminate|].
      destruct (Nat.ltb _ 2); [discriminate|].
      destruct (Nat.eqb _ 0); discriminate.
    + simpl in Herr. destruct (nonNumericMessage_head c) as [rest Hrest].
      rewrite Hrest in Herr. discriminate.
    + discriminate.
Qed.

Lemma enabled_training_passes_the_guard_witness :
  parsedRows xyTrained <> [] /\
  computeFeaturesAndLabels xyTrained <> Throw configurationMissing /\
  forall st', trainModel signedSumTrainer xyTrained = Fulfilled st' ->
    trainingError st'
    <> Some "Dataset, features, or label configuration missing.".
Proof.
  apply (enabled_training_passes_the_guard xyParse signedSumTrainer xyTrained).
  - exact xyTrained_reachable.
  - split; intros H; vm_compute in H; discriminate H.
Defined.

End HandlerExtras.
